(** * crypto-top10-web: the refresh pipeline and its indicators

    A shallow embedding of [script.js].  The file holds three successive
    variants of the same page script:

    - the ranked page (lines 1-350): order and timeframe buttons, 50-day
      average, auto-refresh;
    - the minimal page (lines 351-543);
    - the indicator page (lines 544-949): market-cap order only, 50- and
      200-day averages, 14-day RSI, volume to market-cap ratio, auto-refresh.

    JavaScript numbers are idealised as exact rationals ([Q]): every
    arithmetic operation of the script is the exact one, and comparisons of
    numbers are comparisons of rationals.  Results are therefore stated up to
    [Qeq] where a quotient or a sum is involved.  Null and undefined are the
    [None] of an option. *)

From Stdlib Require Import QArith Qround Qabs Lqa DecimalString.
From stdpp Require Import base option list gmap strings.

Local Open Scope Q_scope.

(** ** The builtins the script relies on *)

Module Js.

(** [x < y] on numbers. *)
Definition Qlt_bool (x y : Q) : bool := negb (Qle_bool y x).

(** The number a natural array length or counter stands for. *)
Definition num (n : nat) : Q := inject_Z (Z.of_nat n).

(** [arr.slice(-n)]: the last [n] elements, all of them when the array is
    shorter; [-0] is [0], so [slice(-0)] is the whole array. *)
Definition slice_neg {A} (n : nat) (arr : list A) : list A :=
  match n with
  | O => arr
  | _ => drop (length arr - n) arr
  end.

(** [arr.reduce((acc, val) => acc + val, 0)]. *)
Definition sum (arr : list Q) : Q := foldl Qplus 0 arr.

(** [arr[i]] for an index within bounds (the callers guard the length). *)
Definition at_ (arr : list Q) (i : nat) : Q := default 0 (arr !! i).

(** Decimal digits of a non-negative integer, ["0"] for zero. *)
Definition digits (n : Z) : string :=
  NilZero.string_of_uint (N.to_uint (Z.to_N n)).

Fixpoint zeros (k : nat) : string :=
  match k with
  | O => EmptyString
  | S k' => "0" +:+ zeros k'
  end.

(** [Number.prototype.toFixed(f)] on a number below 10^21 in magnitude
    (from there on the builtin answers in exponent notation, which is not
    modelled).  The integer [n] with [n / 10^f] closest to [x] is taken,
    the larger one on a tie; its digits are padded to [f + 1] places and
    the point is put before the last [f]. *)
Definition toFixed (x : Q) (f : nat) : string :=
  let neg := Qlt_bool x 0 in
  let x := if neg then - x else x in
  let n := Qfloor (x * inject_Z (10 ^ Z.of_nat f) + (1 # 2)) in
  let m := digits n in
  let m :=
    match f with
    | O => m
    | _ =>
      let k := String.length m in
      let m := if (k <=? f)%nat then zeros (f + 1 - k) +:+ m else m in
      let k := String.length m in
      String.substring 0 (k - f) m +:+ "." +:+ String.substring (k - f) f m
    end in
  (if neg then "-" else EmptyString) +:+ m.

End Js.

(** ** Number formatting (lines 939-949, the same in the three variants) *)

Module Format.
Import Js.

Definition units : list string := [EmptyString; "K"; "M"; "B"; "T"; "Q"]%string.

(** The [while] loop of [formatLargeNumber].  Each turn increments
    [unitIndex], and the loop condition bounds it by [units.length - 1], so
    [units.length - 1] turns are all the loop can take: that is the fuel. *)
Fixpoint scale (fuel : nat) (scaled : Q) (unitIndex : nat) : Q * nat :=
  match fuel with
  | O => (scaled, unitIndex)
  | S fuel' =>
    if Qle_bool 1000 scaled && (unitIndex <? length units - 1)%nat
    then scale fuel' (scaled / 1000) (S unitIndex)
    else (scaled, unitIndex)
  end.

Definition formatLargeNumber (value : option Q) : string :=
  match value with
  | None => "-"
  | Some value =>
    let '(scaled, unitIndex) := scale (length units - 1) value 0 in
    "$" +:+ toFixed scaled (if Qlt_bool scaled 100 then 2 else 0)
        +:+ default EmptyString (units !! unitIndex)
  end.

End Format.

(** ** Indicators of the indicator page (lines 726-783) *)

Module Indicators.
Import Js.

(** One turn of the [for] loop of [calculateRSI]: [acc] is
    [(gains, losses)]. *)
Definition rsi_step (prices : list Q) (acc : Q * Q) (i : nat) : Q * Q :=
  let change := at_ prices i - at_ prices (i - 1) in
  if Qle_bool 0 change
  then (acc.1 + change, acc.2)
  else (acc.1, acc.2 + Qabs change).

(** [calculateRSI(prices, period = 14)].  The loop runs [i] from [1] to
    [period]; the length guard keeps [prices[i]] within bounds. *)
Definition calculateRSI (prices : option (list Q)) (period : nat) : option Q :=
  match prices with
  | None => None
  | Some prices =>
    if (length prices <=? period)%nat then None
    else
      let '(gains, losses) := foldl (rsi_step prices) (0, 0) (seq 1 period) in
      let avgGain := gains / num period in
      let avgLoss := losses / num period in
      if Qeq_bool avgLoss 0 then Some 100
      else
        let rs := avgGain / avgLoss in
        Some (100 - 100 / (1 + rs))
  end.

(** The moving average of [fetchMarketChart]: the expression it evaluates
    for the windows 50 (lines 740-741) and 200 (lines 743-744), under the
    guard of line 735 that answers null for an empty series. *)
Definition movingAverage (prices : list Q) (window : nat) : option Q :=
  if (length prices =? 0)%nat then None
  else
    let last := slice_neg window prices in
    Some (sum last / num (length last)).

(** What [fetchMarketChart] resolves to. *)
Record Extra := {
  avg50 : option Q;
  avg200 : option Q;
  prices30 : list Q;
  rsi14 : option Q
}.

Definition no_extra : Extra :=
  {| avg50 := None; avg200 := None; prices30 := []; rsi14 := None |}.

(** [fetchMarketChart] from the parsed response on: [json] is [None] for a
    body that is null or has no [prices], and otherwise the
    [[timestamp, price]] pairs of [json.prices]. *)
Definition fetchMarketChart (json : option (list (Q * Q))) : Extra :=
  match json with
  | None => no_extra
  | Some pairs =>
    if (length pairs =? 0)%nat then no_extra
    else
      let prices := pairs.*2 in
      let last50 := slice_neg 50 prices in
      let avg50 := sum last50 / num (length last50) in
      let last200 := slice_neg 200 prices in
      let avg200 := sum last200 / num (length last200) in
      let prices30 := slice_neg 30 prices in
      let rsi := calculateRSI (Some (slice_neg 15 prices)) 14 in
      {| avg50 := Some avg50; avg200 := Some avg200;
         prices30 := prices30; rsi14 := rsi |}
  end.

End Indicators.

(** ** The page: script variables, document and pending work

    [fetchData] is an async function: a call runs up to its first [await]
    and is resumed when the awaited request settles.  The page is modelled
    as a state and a handler per event of the browser's event loop; a
    suspended call of [fetchData] is a [Cycle] of the state. *)

Module Page.
Import Js.
Export Indicators.

Inductive Order := MARKET_CAP_DESC | VOLUME_DESC.

Inductive Timeframe := TF7d | TF30d.

#[global] Instance Order_eq_dec : EqDecision Order.
Proof. solve_decision. Defined.

#[global] Instance Timeframe_eq_dec : EqDecision Timeframe.
Proof. solve_decision. Defined.

(** An element of the [coins/markets] response. *)
Record Coin := {
  id : string;
  name : string;
  symbol : string;
  image : string;
  current_price : Q;
  market_cap : option Q;
  market_cap_rank : option nat;
  total_volume : Q;
  price_change_percentage_24h : option Q;
  sparkline_in_7d : option (list Q)
}.

(** [Object.assign({}, coin, extra)]. *)
Definition Enriched : Type := Coin * Extra.

Inductive Request :=
| GetMarkets (order : Order)
| GetMarketChart (coin : string).

(** How a [market_chart] request ends for [fetchData]: [Rejected] when
    [fetchMarketChart] throws (transport failure, unparsable body), and
    otherwise the parsed body, [None] when it is null or has no [prices]. *)
Inductive HistoryResult :=
| Rejected
| Resolved (json : option (list (Q * Q))).

Inductive Colour := Green | Red.

Record Chart := { data : list Q; borderColor : Colour }.

Inductive LogEntry :=
| ErrorHistorical (coin : string)
| ErrorCrypto.

Inductive Stage :=
| AwaitSnapshot
| AwaitHistories (data : list Coin) (results : list (option Enriched)).

(** A suspended call of [fetchData]: the order written into its URL and the
    [await] it is suspended at. *)
Record Cycle := { url_order : Order; stage : Stage }.

Record State := {
  (* variables of the script *)
  currentOrder : Order;
  chartTimeframe : Timeframe;
  refreshTimer : option nat;
  coinsData : list Enriched;
  chartInstances : gmap nat Chart;
  (* document: the loading element, the content area, and the canvases of
     the table rows, [chart-i] as [i] *)
  loadingShown : bool;
  loadingText : option string;
  contentHidden : bool;
  tbody : list nat;
  (* browser: pending timeouts, suspended calls, the requests sent *)
  timers : gset nat;
  nextTimer : nat;
  cycles : gmap nat Cycle;
  nextCycle : nat;
  requests : list Request;
  console : list LogEntry;
  (* ghost: the order of the request [coinsData] was built from *)
  coinsOrder : option Order
}.

Definition set_currentOrder (v : Order) (s : State) : State :=
  Build_State v (chartTimeframe s) (refreshTimer s) (coinsData s)
    (chartInstances s) (loadingShown s) (loadingText s) (contentHidden s)
    (tbody s) (timers s) (nextTimer s) (cycles s) (nextCycle s) (requests s)
    (console s) (coinsOrder s).

Definition set_chartTimeframe (v : Timeframe) (s : State) : State :=
  Build_State (currentOrder s) v (refreshTimer s) (coinsData s)
    (chartInstances s) (loadingShown s) (loadingText s) (contentHidden s)
    (tbody s) (timers s) (nextTimer s) (cycles s) (nextCycle s) (requests s)
    (console s) (coinsOrder s).

Definition set_refreshTimer (v : option nat) (s : State) : State :=
  Build_State (currentOrder s) (chartTimeframe s) v (coinsData s)
    (chartInstances s) (loadingShown s) (loadingText s) (contentHidden s)
    (tbody s) (timers s) (nextTimer s) (cycles s) (nextCycle s) (requests s)
    (console s) (coinsOrder s).

Definition set_coinsData (v : list Enriched) (s : State) : State :=
  Build_State (currentOrder s) (chartTimeframe s) (refreshTimer s) v
    (chartInstances s) (loadingShown s) (loadingText s) (contentHidden s)
    (tbody s) (timers s) (nextTimer s) (cycles s) (nextCycle s) (requests s)
    (console s) (coinsOrder s).

Definition set_chartInstances (v : gmap nat Chart) (s : State) : State :=
  Build_State (currentOrder s) (chartTimeframe s) (refreshTimer s)
    (coinsData s) v (loadingShown s) (loadingText s) (contentHidden s)
    (tbody s) (timers s) (nextTimer s) (cycles s) (nextCycle s) (requests s)
    (console s) (coinsOrder s).

Definition set_loadingShown (v : bool) (s : State) : State :=
  Build_State (currentOrder s) (chartTimeframe s) (refreshTimer s)
    (coinsData s) (chartInstances s) v (loadingText s) (contentHidden s)
    (tbody s) (timers s) (nextTimer s) (cycles s) (nextCycle s) (requests s)
    (console s) (coinsOrder s).

Definition set_loadingText (v : option string) (s : State) : State :=
  Build_State (currentOrder s) (chartTimeframe s) (refreshTimer s)
    (coinsData s) (chartInstances s) (loadingShown s) v (contentHidden s)
    (tbody s) (timers s) (nextTimer s) (cycles s) (nextCycle s) (requests s)
    (console s) (coinsOrder s).

Definition set_contentHidden (v : bool) (s : State) : State :=
  Build_State (currentOrder s) (chartTimeframe s) (refreshTimer s)
    (coinsData s) (chartInstances s) (loadingShown s) (loadingText s) v
    (tbody s) (timers s) (nextTimer s) (cycles s) (nextCycle s) (requests s)
    (console s) (coinsOrder s).

Definition set_tbody (v : list nat) (s : State) : State :=
  Build_State (currentOrder s) (chartTimeframe s) (refreshTimer s)
    (coinsData s) (chartInstances s) (loadingShown s) (loadingText s)
    (contentHidden s) v (timers s) (nextTimer s) (cycles s) (nextCycle s)
    (requests s) (console s) (coinsOrder s).

Definition set_timers (v : gset nat) (s : State) : State :=
  Build_State (currentOrder s) (chartTimeframe s) (refreshTimer s)
    (coinsData s) (chartInstances s) (loadingShown s) (loadingText s)
    (contentHidden s) (tbody s) v (nextTimer s) (cycles s) (nextCycle s)
    (requests s) (console s) (coinsOrder s).

Definition set_nextTimer (v : nat) (s : State) : State :=
  Build_State (currentOrder s) (chartTimeframe s) (refreshTimer s)
    (coinsData s) (chartInstances s) (loadingShown s) (loadingText s)
    (contentHidden s) (tbody s) (timers s) v (cycles s) (nextCycle s)
    (requests s) (console s) (coinsOrder s).

Definition set_cycles (v : gmap nat Cycle) (s : State) : State :=
  Build_State (currentOrder s) (chartTimeframe s) (refreshTimer s)
    (coinsData s) (chartInstances s) (loadingShown s) (loadingText s)
    (contentHidden s) (tbody s) (timers s) (nextTimer s) v (nextCycle s)
    (requests s) (console s) (coinsOrder s).

Definition set_nextCycle (v : nat) (s : State) : State :=
  Build_State (currentOrder s) (chartTimeframe s) (refreshTimer s)
    (coinsData s) (chartInstances s) (loadingShown s) (loadingText s)
    (contentHidden s) (tbody s) (timers s) (nextTimer s) (cycles s) v
    (requests s) (console s) (coinsOrder s).

Definition set_requests (v : list Request) (s : State) : State :=
  Build_State (currentOrder s) (chartTimeframe s) (refreshTimer s)
    (coinsData s) (chartInstances s) (loadingShown s) (loadingText s)
    (contentHidden s) (tbody s) (timers s) (nextTimer s) (cycles s)
    (nextCycle s) v (console s) (coinsOrder s).

Definition set_console (v : list LogEntry) (s : State) : State :=
  Build_State (currentOrder s) (chartTimeframe s) (refreshTimer s)
    (coinsData s) (chartInstances s) (loadingShown s) (loadingText s)
    (contentHidden s) (tbody s) (timers s) (nextTimer s) (cycles s)
    (nextCycle s) (requests s) v (coinsOrder s).

Definition set_coinsOrder (v : option Order) (s : State) : State :=
  Build_State (currentOrder s) (chartTimeframe s) (refreshTimer s)
    (coinsData s) (chartInstances s) (loadingShown s) (loadingText s)
    (contentHidden s) (tbody s) (timers s) (nextTimer s) (cycles s)
    (nextCycle s) (requests s) (console s) v.

Inductive Event :=
| DOMContentLoaded
| ClickMarketCap
| ClickVolume
| Click7d
| Click30d
| TimerFires (t : nat)
| SnapshotSettled (c : nat) (response : option (list Coin))
| HistorySettled (c : nat) (i : nat) (result : HistoryResult).

Definition error_message : string := "Error fetching data. Please try again later.".

(** [drawChart]: the series and the colour the chart is built with.
    [null >= 0] holds in JavaScript, so an unknown 24h change is green. *)
Definition drawChart (tf : Timeframe) (coin : Enriched) : Chart :=
  let p30 := prices30 coin.2 in
  if bool_decide (tf = TF30d) && negb (length p30 =? 0)%nat then
    let trend := at_ p30 (length p30 - 1) - at_ p30 0 in
    {| data := p30; borderColor := if Qle_bool 0 trend then Green else Red |}
  else
    {| data := default [] (sparkline_in_7d coin.1);
       borderColor :=
         match price_change_percentage_24h coin.1 with
         | Some change => if Qle_bool 0 change then Green else Red
         | None => Green
         end |}.

(** The [forEach] of [updateAllCharts] from [index] on.  [drawChart] throws
    when the canvas [chart-index] is not in the document; the boolean tells
    whether that happened, and the charts drawn before it stay. *)
Fixpoint drawAll (tf : Timeframe) (canvases : list nat) (coins : list Enriched)
    (index : nat) (charts : gmap nat Chart) : gmap nat Chart * bool :=
  match coins with
  | [] => (charts, false)
  | coin :: rest =>
    if bool_decide (index ∈ canvases)
    then drawAll tf canvases rest (S index) (<[index := drawChart tf coin]> charts)
    else (charts, true)
  end.

Definition updateAllCharts (s : State) : State * bool :=
  let '(charts, threw) :=
    drawAll (chartTimeframe s) (tbody s) (coinsData s) 0 (chartInstances s) in
  (set_chartInstances charts s, threw).

Section Refresh.

(** [fetchMarketChart] from the parsed body on; it differs between the
    ranked and the indicator page. *)
Variable fetchMarketChart : option (list (Q * Q)) -> Extra.

(** The callback of [data.map]: the record of one coin, from the way its
    history request ended. *)
Definition settle (coin : Coin) (result : HistoryResult) : Enriched :=
  match result with
  | Resolved json => (coin, fetchMarketChart json)
  | Rejected => (coin, no_extra)
  end.

(** What [Promise.all] resolves to, given how each request ended. *)
Definition enrich (data : list Coin) (results : list HistoryResult) : list Enriched :=
  zip_with settle data results.

(** [fetchData] up to [await fetch(url)]. *)
Definition fetchData_start (s : State) : State :=
  let s := set_loadingShown true s in
  let s := set_contentHidden true s in
  let s := set_tbody [] s in
  let s :=
    match refreshTimer s with
    | Some t => set_refreshTimer None (set_timers (timers s ∖ {[t]}) s)
    | None => s
    end in
  let s := set_requests (requests s ++ [GetMarkets (currentOrder s)]) s in
  let s := set_cycles (<[nextCycle s :=
             {| url_order := currentOrder s; stage := AwaitSnapshot |}]> (cycles s)) s in
  set_nextCycle (S (nextCycle s)) s.

(** The [catch] block of [fetchData]. *)
Definition fetchData_catch (s : State) : State :=
  let s := set_console (console s ++ [ErrorCrypto]) s in
  set_loadingText (Some error_message) s.

(** [fetchData] from the resolution of [Promise.all] on. *)
Definition fetchData_finish (s : State) (order : Order) (coins : list Enriched) : State :=
  let s := set_coinsOrder (Some order) (set_coinsData coins s) in
  let s := set_tbody (tbody s ++ seq 0 (length coins)) s in
  match updateAllCharts s with
  | (s, true) => fetchData_catch s
  | (s, false) =>
    let s := set_loadingShown false s in
    let s := set_contentHidden false s in
    let t := nextTimer s in
    let s := set_refreshTimer (Some t) s in
    let s := set_timers ({[t]} ∪ timers s) s in
    set_nextTimer (S t) s
  end.

(** The snapshot request of cycle [c] settles: [None] when [fetch] or
    [response.json()] rejects or the body is not an array.  Otherwise
    [data.map] sends one history request per coin, in order. *)
Definition fetchData_snapshot (s : State) (c : nat) (response : option (list Coin)) : State :=
  match cycles s !! c with
  | Some {| url_order := order; stage := AwaitSnapshot |} =>
    match response with
    | None => fetchData_catch (set_cycles (delete c (cycles s)) s)
    | Some data =>
      let s := set_requests (requests s ++ (GetMarketChart ∘ id <$> data)) s in
      if (length data =? 0)%nat
      then fetchData_finish (set_cycles (delete c (cycles s)) s) order []
      else set_cycles (<[c := {| url_order := order;
                                 stage := AwaitHistories data (replicate (length data) None) |}]>
                         (cycles s)) s
    end
  | _ => s
  end.

(** The history request number [i] of cycle [c] settles.  When it was the
    last one pending, [Promise.all] resolves and the cycle finishes. *)
Definition fetchData_history (s : State) (c i : nat) (result : HistoryResult) : State :=
  match cycles s !! c with
  | Some {| url_order := order; stage := AwaitHistories data results |} =>
    match data !! i, results !! i with
    | Some coin, Some None =>
      let s :=
        match result with
        | Rejected => set_console (console s ++ [ErrorHistorical (id coin)]) s
        | Resolved _ => s
        end in
      let results := <[i := Some (settle coin result)]> results in
      if forallb (fun r => bool_decide (is_Some r)) results
      then fetchData_finish (set_cycles (delete c (cycles s)) s) order (omap (fun r => r) results)
      else set_cycles (<[c := {| url_order := order;
                                 stage := AwaitHistories data results |}]> (cycles s)) s
    | _, _ => s
    end
  | _ => s
  end.

(** The callback of [setTimeout(fetchData, REFRESH_INTERVAL_MS)]. *)
Definition timer_fires (s : State) (t : nat) : State :=
  if bool_decide (t ∈ timers s)
  then fetchData_start (set_timers (timers s ∖ {[t]}) s)
  else s.

End Refresh.

(** The page after a sequence of events. *)
Definition run (handle : State -> Event -> State) (s : State) (events : list Event) : State :=
  foldl handle s events.

(** The history requests of cycle [c] settling in the order [arrival], the
    request of index [i] ending as [results] says. *)
Definition history_events (c : nat) (results : list HistoryResult)
    (arrival : list nat) : list Event :=
  (fun i => HistorySettled c i (default Rejected (results !! i))) <$> arrival.

(** The result array of a cycle that will resolve to [out], while the
    requests of the indices in [pending] are still under way. *)
Definition slots (out : list Enriched) (pending : list nat) : list (option Enriched) :=
  imap (fun i r => if decide (i ∈ pending) then None else Some r) out.

(** Every indicator of the record is there. *)
Definition populated (e : Extra) : Prop :=
  is_Some (avg50 e) /\ is_Some (avg200 e) /\ is_Some (rsi14 e) /\ prices30 e <> [].

(** No indicator of the record is there. *)
Definition absent (e : Extra) : Prop :=
  avg50 e = None /\ avg200 e = None /\ rsi14 e = None /\ prices30 e = [].

End Page.

(** ** The ranked page (lines 1-350) *)

Module Ranked.
Import Js.
Export Page.

(** [fetchMarketChart] (lines 170-184): the average of all the prices of the
    50-day history and its last 30 prices. *)
Definition fetchMarketChart (json : option (list (Q * Q))) : Extra :=
  match json with
  | None => no_extra
  | Some pairs =>
    if (length pairs =? 0)%nat then no_extra
    else
      let prices := pairs.*2 in
      let avg50 := sum prices / num (length prices) in
      {| avg50 := Some avg50; avg200 := None;
         prices30 := slice_neg 30 prices; rsi14 := None |}
  end.

Definition init : State :=
  {| currentOrder := MARKET_CAP_DESC; chartTimeframe := TF7d;
     refreshTimer := None; coinsData := []; chartInstances := ∅;
     loadingShown := true; loadingText := None; contentHidden := true;
     tbody := [];
     timers := ∅; nextTimer := 1; cycles := ∅; nextCycle := 0;
     requests := []; console := []; coinsOrder := None |}.

(** The click handlers of the order buttons (lines 47-63). *)
Definition setOrder (order : Order) (s : State) : State :=
  if bool_decide (currentOrder s ≠ order)
  then fetchData_start (set_currentOrder order s)
  else s.

(** The click handlers of the timeframe buttons (lines 65-81).  An
    exception of [updateAllCharts] ends the handler; what was done stays. *)
Definition setTimeframe (tf : Timeframe) (s : State) : State :=
  if bool_decide (chartTimeframe s ≠ tf)
  then (updateAllCharts (set_chartTimeframe tf s)).1
  else s.

Definition handle (s : State) (e : Event) : State :=
  match e with
  | DOMContentLoaded => fetchData_start s
  | ClickMarketCap => setOrder MARKET_CAP_DESC s
  | ClickVolume => setOrder VOLUME_DESC s
  | Click7d => setTimeframe TF7d s
  | Click30d => setTimeframe TF30d s
  | TimerFires t => timer_fires s t
  | SnapshotSettled c response => fetchData_snapshot s c response
  | HistorySettled c i result => fetchData_history fetchMarketChart s c i result
  end.

End Ranked.

(** ** The indicator page (lines 544-949) *)

Module IndicatorPage.
Import Js.
Export Page.

Definition init : State :=
  {| currentOrder := MARKET_CAP_DESC; chartTimeframe := TF30d;
     refreshTimer := None; coinsData := []; chartInstances := ∅;
     loadingShown := true; loadingText := None; contentHidden := true;
     tbody := [];
     timers := ∅; nextTimer := 1; cycles := ∅; nextCycle := 0;
     requests := []; console := []; coinsOrder := None |}.

(** The page has no order or timeframe button: their clicks do not occur,
    and are given no effect. *)
Definition handle (s : State) (e : Event) : State :=
  match e with
  | DOMContentLoaded => fetchData_start s
  | ClickMarketCap | ClickVolume | Click7d | Click30d => s
  | TimerFires t => timer_fires s t
  | SnapshotSettled c response => fetchData_snapshot s c response
  | HistorySettled c i result =>
    fetchData_history Indicators.fetchMarketChart s c i result
  end.

(** The volume to market-cap ratio of a table row (lines 678-680). *)
Definition ratio (coin : Coin) : option Q :=
  match market_cap coin with
  | Some cap =>
    if negb (Qeq_bool cap 0) && Qlt_bool 0 cap
    then Some (total_volume coin / cap)
    else None
  | None => None
  end.

(** The states of the page: it is loaded once, and then timers fire and
    requests settle. *)
Inductive reachable : State -> Prop :=
| reachable_load : reachable (handle init DOMContentLoaded)
| reachable_step s e :
    reachable s -> e <> DOMContentLoaded -> reachable (handle s e).

(** The timeout kept in [refreshTimer] is pending. *)
Definition rearmed (s : State) : Prop :=
  exists t, refreshTimer s = Some t /\ t ∈ timers s.

(** Between two cycles: no call of [fetchData] is suspended, and no timeout
    but the one of [refreshTimer] is pending. *)
Definition waiting (s : State) : Prop :=
  cycles s = ∅ /\ forall t, t ∈ timers s -> refreshTimer s = Some t.

(** During a cycle: one call of [fetchData] is suspended, no timeout is
    pending, and the loading element is shown. *)
Definition fetching (s : State) : Prop :=
  exists c cy,
    cycles s = {[c := cy]} /\ timers s = ∅ /\ refreshTimer s = None
    /\ loadingShown s = true.

End IndicatorPage.

(** ** The indicators as the specification words them

    Textbook formulations, independent of the loops above; the theorems
    compare the script with them. *)

Module Textbook.
Import Js.

(** Successive differences of a series, oldest first. *)
Fixpoint deltas (series : list Q) : list Q :=
  match series with
  | a :: (b :: _) as rest => (b - a) :: deltas rest
  | _ => []
  end.

(** The last [n] elements of a list, in order. *)
Definition lastn {A} (n : nat) (l : list A) : list A := reverse (take n (reverse l)).

Definition gain_sum (ds : list Q) : Q :=
  foldr (fun d acc => (if Qle_bool 0 d then d else 0) + acc) 0 ds.

Definition loss_sum (ds : list Q) : Q :=
  foldr (fun d acc => (if Qle_bool 0 d then 0 else Qabs d) + acc) 0 ds.

(** The simple RSI of [period] deltas. *)
Definition rsi_of_deltas (ds : list Q) (period : nat) : Q :=
  let avgGain := gain_sum ds / num period in
  let avgLoss := loss_sum ds / num period in
  if Qeq_bool avgLoss 0 then 100 else 100 - 100 / (1 + avgGain / avgLoss).

(** RSI over the last [period] deltas of the series. *)
Definition rsi_trailing (series : list Q) (period : nat) : option Q :=
  if (length series <=? period)%nat then None
  else Some (rsi_of_deltas (lastn period (deltas series)) period).

(** RSI over the first [period] deltas of the series. *)
Definition rsi_leading (series : list Q) (period : nat) : option Q :=
  if (length series <=? period)%nat then None
  else Some (rsi_of_deltas (take period (deltas series)) period).

(** The loop of [calculateRSI] read on the deltas themselves. *)
Definition delta_step (acc : Q * Q) (d : Q) : Q * Q :=
  if Qle_bool 0 d then (acc.1 + d, acc.2) else (acc.1, acc.2 + Qabs d).

(** Arithmetic mean. *)
Definition mean (l : list Q) : Q := foldr Qplus 0 l / num (length l).

(** Equality of optional numbers, as numbers. *)
Definition oQeq (a b : option Q) : Prop :=
  match a, b with
  | Some x, Some y => x == y
  | None, None => True
  | _, _ => False
  end.

End Textbook.


(** ** Concrete inputs *)

Module Samples.
Import Page.

Definition sample_coin (name : string) (volume : Q) (cap : option Q) : Coin :=
  {| id := name; name := name; symbol := name; image := name;
     current_price := 1; market_cap := cap; market_cap_rank := None;
     total_volume := volume; price_change_percentage_24h := None;
     sparkline_in_7d := None |}.

(** Sixteen points: one fall, then a flat price. *)
Definition series16 : list Q := 10 :: replicate 15 1.

(** The history of a coin listed three days ago. *)
Definition short_history : list (Q * Q) := [(0, 1); (1, 2); (2, 3)].

(** The responses to two overlapping cycles of the ranked page: cycle 1
    (by volume) is answered before cycle 0 (by market cap). *)
Definition overlap_trace : list Event :=
  [ SnapshotSettled 1 (Some [sample_coin "by-volume" 500 (Some 1000)]);
    HistorySettled 1 0 (Resolved None);
    SnapshotSettled 0 (Some [sample_coin "by-cap" 500 (Some 1000)]);
    HistorySettled 0 0 (Resolved None) ].

End Samples.

(** ** [drawSparkline] (lines 274-317, 467-510 and 873-916)

    The chart of the 7-day prices, coloured by the 24h change; [null >= 0]
    holds, so an unknown change is green. *)

Module Sparkline.
Import Page.

Definition drawSparkline (prices : list Q) (change24h : option Q) : Chart :=
  {| data := prices;
     borderColor :=
       match change24h with
       | Some change => if Qle_bool 0 change then Green else Red
       | None => Green
       end |}.

End Sparkline.

(** ** The minimal page (lines 351-543)

    One variable, [currentOrder]; no timer and no history request.  A call
    of [fetchData] is suspended at its snapshot request only. *)

Module MinimalPage.
Import Js Page Sparkline.

Record State := {
  currentOrder : Order;
  (* document: the loading element, the content area, the canvases of the
     rows and the charts made on them, in the order of their making *)
  loadingShown : bool;
  loadingText : option string;
  contentHidden : bool;
  tbody : list nat;
  sparklines : list (nat * Chart);
  (* browser: suspended calls, the requests sent *)
  pending : gset nat;
  nextCycle : nat;
  requests : list Request;
  console : list LogEntry
}.

Definition init : State :=
  {| currentOrder := MARKET_CAP_DESC;
     loadingShown := true; loadingText := None; contentHidden := true;
     tbody := []; sparklines := [];
     pending := ∅; nextCycle := 0; requests := []; console := [] |}.

(** [fetchData] up to [await fetch(url)] (lines 414-424). *)
Definition fetchData_start (s : State) : State :=
  {| currentOrder := currentOrder s;
     loadingShown := true; loadingText := loadingText s; contentHidden := true;
     tbody := []; sparklines := sparklines s;
     pending := {[nextCycle s]} ∪ pending s; nextCycle := S (nextCycle s);
     requests := requests s ++ [GetMarkets (currentOrder s)];
     console := console s |}.

(** The sparkline of the row of index [index] (line 446). *)
Definition row_sparkline (index : nat) (coin : Coin) : nat * Chart :=
  (index, drawSparkline (default [] (sparkline_in_7d coin))
            (price_change_percentage_24h coin)).

(** [fetchData] from the response on (lines 425-454): a row and its
    sparkline per coin, or the [catch] block when the request failed. *)
Definition fetchData_settled (s : State) (c : nat) (response : option (list Coin)) : State :=
  if bool_decide (c ∈ pending s) then
    match response with
    | Some data =>
      {| currentOrder := currentOrder s;
         loadingShown := false; loadingText := loadingText s;
         contentHidden := false;
         tbody := tbody s ++ seq 0 (length data);
         sparklines := sparklines s ++ imap row_sparkline data;
         pending := pending s ∖ {[c]}; nextCycle := nextCycle s;
         requests := requests s; console := console s |}
    | None =>
      {| currentOrder := currentOrder s;
         loadingShown := loadingShown s; loadingText := Some error_message;
         contentHidden := contentHidden s;
         tbody := tbody s; sparklines := sparklines s;
         pending := pending s ∖ {[c]}; nextCycle := nextCycle s;
         requests := requests s; console := console s ++ [ErrorCrypto] |}
    end
  else s.

(** The click handlers of the order buttons (lines 386-402). *)
Definition setOrder (order : Order) (s : State) : State :=
  if bool_decide (currentOrder s ≠ order)
  then
    fetchData_start
      {| currentOrder := order;
         loadingShown := loadingShown s; loadingText := loadingText s;
         contentHidden := contentHidden s;
         tbody := tbody s; sparklines := sparklines s;
         pending := pending s; nextCycle := nextCycle s;
         requests := requests s; console := console s |}
  else s.

(** The page has no timeframe button, no timer and no history request:
    these events do not occur, and are given no effect. *)
Definition handle (s : State) (e : Event) : State :=
  match e with
  | DOMContentLoaded => fetchData_start s
  | ClickMarketCap => setOrder MARKET_CAP_DESC s
  | ClickVolume => setOrder VOLUME_DESC s
  | SnapshotSettled c response => fetchData_settled s c response
  | Click7d | Click30d | TimerFires _ | HistorySettled _ _ _ => s
  end.

Definition run (s : State) (events : list Event) : State := foldl handle s events.

End MinimalPage.

(** ** The cells of a table row

    The values the rows are built from: the 50-day cell of the ranked page
    (lines 126-128) and the indicator cells of the indicator page (lines
    659-681).  The quotient by [avg50] is the exact one, so that the
    50-day cell of the indicator page is modelled for a non-zero average. *)

Module Cells.
Import Js Page.

(** The class of a cell: ['positive'], ['negative'] or none. *)
Inductive Class := Positive | Negative | NoClass.

(** Ranked page. *)
Definition above50 (coin : Enriched) : bool :=
  match avg50 coin.2 with
  | Some avg => Qle_bool avg (current_price coin.1)
  | None => false
  end.

Definition dmaClass (coin : Enriched) : Class :=
  if above50 coin then Positive else Negative.

Definition dmaText (coin : Enriched) : string :=
  match avg50 coin.2 with
  | None => "-"
  | Some _ => if above50 coin then "Above" else "Below"
  end.

(** Indicator page: the percent difference from the 50-day average. *)
Definition dma50 (coin : Enriched) : Class * string :=
  match avg50 coin.2 with
  | None => (NoClass, "-"%string)
  | Some avg =>
    let diff := (current_price coin.1 - avg) / avg * 100 in
    (if Qle_bool 0 diff then Positive else Negative,
     ((if Qle_bool 0 diff then "+" else EmptyString) +:+ toFixed diff 2 +:+ "%")%string)
  end.

Definition above200 (coin : Enriched) : bool :=
  match avg200 coin.2 with
  | Some avg => Qle_bool avg (current_price coin.1)
  | None => false
  end.

Definition dma200Class (coin : Enriched) : Class :=
  if above200 coin then Positive else Negative.

Definition dma200Text (coin : Enriched) : string :=
  match avg200 coin.2 with
  | None => "-"
  | Some _ => if above200 coin then "Above" else "Below"
  end.

(** Oversold below 30, overbought above 70. *)
Definition rsiClass (coin : Enriched) : Class :=
  match rsi14 coin.2 with
  | Some rsi =>
    if Qlt_bool rsi 30 then Positive
    else if Qlt_bool 70 rsi then Negative
    else NoClass
  | None => NoClass
  end.

Definition rsiText (coin : Enriched) : string :=
  match rsi14 coin.2 with
  | None => "-"
  | Some rsi => toFixed rsi 2
  end.

Definition ratioText (coin : Enriched) : string :=
  match IndicatorPage.ratio coin.1 with
  | None => "-"
  | Some ratio => toFixed ratio 3
  end.

(** The rank cell: [coin.market_cap_rank ?? index + 1]. *)
Definition rankCell (coin : Enriched) (index : nat) : nat :=
  default (index + 1)%nat (market_cap_rank coin.1).

End Cells.

(** ** Runs of the ranked page and what they should fetch *)

Module Runs.
Import Page.

Definition is_order_click (e : Event) : bool :=
  match e with
  | ClickMarketCap | ClickVolume => true
  | _ => false
  end.

(** The states of the ranked page: it is loaded once, and then buttons are
    clicked, timers fire and requests settle, in any order. *)
Inductive reachable : State -> Prop :=
| reachable_load : reachable (Ranked.handle Ranked.init DOMContentLoaded)
| reachable_step s e :
    reachable s -> e <> DOMContentLoaded -> reachable (Ranked.handle s e).

(** The runs of the ranked page in which the order buttons are clicked only
    while no call of [fetchData] is suspended. *)
Inductive sequential : State -> Prop :=
| sequential_load : sequential (Ranked.handle Ranked.init DOMContentLoaded)
| sequential_step s e :
    sequential s -> e <> DOMContentLoaded ->
    (is_order_click e = true -> cycles s = ∅) ->
    sequential (Ranked.handle s e).

(** The orders of the snapshot requests a run of the minimal page calls
    for: one when the page is loaded, and one per click that changes the
    order. *)
Fixpoint fetches (current : Order) (events : list Event) : list Order :=
  match events with
  | [] => []
  | DOMContentLoaded :: rest => current :: fetches current rest
  | ClickMarketCap :: rest =>
    if bool_decide (current ≠ MARKET_CAP_DESC)
    then MARKET_CAP_DESC :: fetches MARKET_CAP_DESC rest
    else fetches current rest
  | ClickVolume :: rest =>
    if bool_decide (current ≠ VOLUME_DESC)
    then VOLUME_DESC :: fetches VOLUME_DESC rest
    else fetches current rest
  | _ :: rest => fetches current rest
  end.

(** The errors logged for the history requests that fail, in the order in
    which they settle. *)
Definition history_errors (data : list Coin) (results : list HistoryResult)
    (arrival : list nat) : list LogEntry :=
  omap (fun i =>
          match data !! i, default Rejected (results !! i) with
          | Some coin, Rejected => Some (ErrorHistorical (id coin))
          | _, _ => None
          end) arrival.

(** The page after the history requests of cycle [c] have settled in the
    order [arrival], for either variant of [fetchMarketChart]. *)
Definition history_run (fetchMarketChart : option (list (Q * Q)) -> Extra)
    (s : State) (c : nat) (results : list HistoryResult) (arrival : list nat) : State :=
  foldl (fun s i => fetchData_history fetchMarketChart s c i
                      (default Rejected (results !! i))) s arrival.

(** The state of a cycle set aside: the page with other suspended calls
    and another console. *)
Definition park (s : State) (suspended : gmap nat Cycle) (log : list LogEntry) : State :=
  set_cycles suspended (set_console log s).

End Runs.

(** ** Two states of the ranked page *)

Module Shown.
Import Page Samples.



End Shown.

(** ** Powers of a thousand *)

Module Thousand.


End Thousand.
(** * Properties of the script *)

Import Js Format Indicators Page Textbook Samples.

(** ** Numbers *)

Lemma Qlt_bool_iff x y : Qlt_bool x y = true <-> x < y.
Proof.
  unfold Qlt_bool. rewrite negb_true_iff.
  destruct (Qle_bool y x) eqn:E.
  - apply Qle_bool_iff in E. split; [discriminate | intros H; exfalso; lra].
  - split; [intros _ | reflexivity].
    apply Qnot_le_lt. intros H. apply Qle_bool_iff in H. congruence.
Qed.

Lemma num_pos n : (0 < n)%nat -> 0 < num n.
Proof.
  intros H. unfold num. change 0 with (inject_Z 0). rewrite <- Zlt_Qlt. lia.
Qed.

Lemma Qdiv_nonneg a b : 0 <= a -> 0 < b -> 0 <= a / b.
Proof. intros Ha Hb. apply Qle_shift_div_l; [assumption | lra]. Qed.

Lemma Qeq_bool_proper a b c d : a == b -> c == d -> Qeq_bool a c = Qeq_bool b d.
Proof.
  intros H1 H2. destruct (Qeq_bool b d) eqn:E.
  - apply Qeq_bool_iff. apply Qeq_bool_iff in E. rewrite H1, H2. assumption.
  - destruct (Qeq_bool a c) eqn:E'; [|reflexivity].
    apply Qeq_bool_iff in E'. rewrite H1, H2 in E'.
    apply Qeq_bool_iff in E'. congruence.
Qed.

Lemma forallb_nonneg (l : list Q) :
  forallb (Qle_bool 0) l = true -> forall d, d ∈ l -> 0 <= d.
Proof.
  intros H d Hd. apply Qle_bool_iff.
  rewrite forallb_forall in H. apply H. apply list_elem_of_In. assumption.
Qed.

(** ** Slices and deltas *)

Lemma lastn_drop {A} n (l : list A) : lastn n l = drop (length l - n) l.
Proof.
  unfold lastn. rewrite take_reverse, reverse_involutive. reflexivity.
Qed.

Lemma slice_neg_lastn {A} n (l : list A) : (0 < n)%nat -> slice_neg n l = lastn n l.
Proof.
  intros H. rewrite lastn_drop. destruct n; [lia | reflexivity].
Qed.

Lemma length_slice_neg {A} n (l : list A) :
  (0 < n)%nat -> length (slice_neg n l) = (n `min` length l)%nat.
Proof.
  intros Hn. unfold slice_neg. destruct n; [lia|]. rewrite length_drop. lia.
Qed.

Lemma slice_neg_nonempty {A} n (l : list A) :
  (0 < n)%nat -> l <> [] -> slice_neg n l <> [].
Proof.
  intros Hn Hl H. apply (f_equal length) in H.
  rewrite length_slice_neg in H by assumption.
  destruct l; [congruence|]. cbn [length] in H. lia.
Qed.

Lemma length_deltas series : length (deltas series) = (length series - 1)%nat.
Proof.
  induction series as [|a [|b rest] IH]; [reflexivity | reflexivity |].
  change (deltas (a :: b :: rest)) with ((b - a) :: deltas (b :: rest)).
  simpl in *. rewrite IH. lia.
Qed.

Lemma lookup_deltas series : forall j,
  (S j < length series)%nat ->
  deltas series !! j = Some (at_ series (S j) - at_ series j).
Proof.
  induction series as [|a [|b rest] IH]; intros j Hj; simpl in Hj; [lia | lia |].
  change (deltas (a :: b :: rest)) with ((b - a) :: deltas (b :: rest)).
  destruct j as [|j]; [reflexivity|].
  change (((b - a) :: deltas (b :: rest)) !! S j) with (deltas (b :: rest) !! j).
  rewrite IH by (simpl; lia). reflexivity.
Qed.

Lemma deltas_drop series : forall k, deltas (drop k series) = drop k (deltas series).
Proof.
  induction series as [|a [|b rest] IH]; intros k.
  - destruct k; reflexivity.
  - destruct k as [|[|k]]; reflexivity.
  - destruct k as [|k]; [reflexivity|].
    change (deltas (a :: b :: rest)) with ((b - a) :: deltas (b :: rest)).
    change (drop (S k) (a :: b :: rest)) with (drop k (b :: rest)).
    rewrite IH. reflexivity.
Qed.

(** The changes the loop of [calculateRSI] computes are the first [period]
    deltas of the series. *)
Lemma changes_deltas prices period :
  (period < length prices)%nat ->
  (fun i => at_ prices i - at_ prices (i - 1)) <$> seq 1 period
  = take period (deltas prices).
Proof.
  intros H. apply list_eq. intros j.
  rewrite list_lookup_fmap, lookup_take.
  destruct (decide (j < period)%nat) as [Hj|Hj].
  - rewrite lookup_seq_lt by assumption. rewrite lookup_deltas by lia.
    simpl. rewrite Nat.sub_0_r. reflexivity.
  - rewrite lookup_seq_ge by lia. reflexivity.
Qed.

Lemma at_take prices n i : (i < n)%nat -> at_ (take n prices) i = at_ prices i.
Proof.
  intros H. unfold at_. rewrite lookup_take_lt by assumption. reflexivity.
Qed.

(** ** The loop of [calculateRSI] *)

Lemma rsi_step_nonneg prices acc i :
  0 <= acc.1 -> 0 <= acc.2 ->
  0 <= (rsi_step prices acc i).1 /\ 0 <= (rsi_step prices acc i).2.
Proof.
  intros H1 H2. unfold rsi_step.
  set (change := at_ prices i - at_ prices (i - 1)).
  destruct (Qle_bool 0 change) eqn:E; cbn [fst snd].
  - apply Qle_bool_iff in E. split; lra.
  - split; [assumption|].
    pose proof (Qabs_nonneg change). lra.
Qed.

Lemma rsi_fold_nonneg prices idx : forall acc,
  0 <= acc.1 -> 0 <= acc.2 ->
  0 <= (foldl (rsi_step prices) acc idx).1 /\
  0 <= (foldl (rsi_step prices) acc idx).2.
Proof.
  induction idx as [|i idx IH]; intros acc H1 H2; simpl; [auto|].
  destruct (rsi_step_nonneg prices acc i H1 H2). apply IH; assumption.
Qed.

(** Without a fall among the changes, [losses] is never touched. *)
Lemma rsi_fold_no_loss prices idx : forall acc,
  (forall i, i ∈ idx -> 0 <= at_ prices i - at_ prices (i - 1)) ->
  (foldl (rsi_step prices) acc idx).2 = acc.2.
Proof.
  induction idx as [|i idx IH]; intros acc H; simpl; [reflexivity|].
  rewrite IH by (intros j Hj; apply H; apply elem_of_cons; right; exact Hj).
  unfold rsi_step.
  assert (E : Qle_bool 0 (at_ prices i - at_ prices (i - 1)) = true)
    by (apply Qle_bool_iff, H, elem_of_cons; left; reflexivity).
  rewrite E. reflexivity.
Qed.

Lemma rsi_fold_changes prices idx : forall acc,
  foldl (rsi_step prices) acc idx
  = foldl delta_step acc ((fun i => at_ prices i - at_ prices (i - 1)) <$> idx).
Proof.
  induction idx as [|i idx IH]; intros acc; [reflexivity|].
  simpl. rewrite IH. reflexivity.
Qed.

Lemma delta_fold_sums ds : forall acc,
  (foldl delta_step acc ds).1 == acc.1 + gain_sum ds /\
  (foldl delta_step acc ds).2 == acc.2 + loss_sum ds.
Proof.
  induction ds as [|d ds IH]; intros acc; simpl.
  - split; ring.
  - destruct (IH (delta_step acc d)) as [H1 H2]. rewrite H1, H2.
    unfold delta_step, gain_sum, loss_sum. simpl.
    destruct (Qle_bool 0 d); cbn [fst snd]; split; ring.
Qed.

Lemma rsi_fold_sums prices period gains losses :
  (period < length prices)%nat ->
  foldl (rsi_step prices) (0, 0) (seq 1 period) = (gains, losses) ->
  gains == gain_sum (take period (deltas prices)) /\
  losses == loss_sum (take period (deltas prices)).
Proof.
  intros H F. rewrite rsi_fold_changes, changes_deltas in F by assumption.
  destruct (delta_fold_sums (take period (deltas prices)) (0, 0)) as [H1 H2].
  rewrite F in H1, H2. cbn [fst snd] in H1, H2. split; lra.
Qed.

Lemma rsi_range x : 0 <= x -> 0 <= 100 - 100 / (1 + x) <= 100.
Proof.
  intros Hx.
  assert (Hp : 0 < 1 + x) by lra.
  assert (H1 : 100 / (1 + x) <= 100) by (apply Qle_shift_div_r; [assumption | nra]).
  assert (H2 : 0 <= 100 / (1 + x)) by (apply Qle_shift_div_l; [assumption | lra]).
  lra.
Qed.

Lemma calculateRSI_range prices period r :
  (0 < period)%nat ->
  calculateRSI (Some prices) period = Some r -> 0 <= r <= 100.
Proof.
  intros Hp. unfold calculateRSI.
  destruct (length prices <=? period)%nat; [discriminate|].
  destruct (foldl _ _ _) as [gains losses] eqn:F.
  pose proof (rsi_fold_nonneg prices (seq 1 period) (0, 0)) as H.
  rewrite F in H. simpl in H. destruct H as [Hg Hl]; [lra | lra |].
  pose proof (num_pos period Hp) as Hn.
  destruct (Qeq_bool _ _) eqn:E; intros [= <-]; [lra|].
  apply rsi_range.
  assert (Hal : 0 <= losses / num period) by (apply Qdiv_nonneg; assumption).
  assert (~ losses / num period == 0)
    by (intros H; apply Qeq_bool_iff in H; congruence).
  apply Qdiv_nonneg; [apply Qdiv_nonneg; assumption | lra].
Qed.

Lemma calculateRSI_some prices period :
  (period < length prices)%nat -> is_Some (calculateRSI (Some prices) period).
Proof.
  intros H. unfold calculateRSI.
  destruct (Nat.leb_spec (length prices) period); [lia|].
  destruct (foldl _ _ _) as [gains losses].
  destruct (Qeq_bool _ _); eauto.
Qed.

Lemma calculateRSI_no_loss prices period :
  (0 < period)%nat -> (period < length prices)%nat ->
  (forall i, (1 <= i <= period)%nat -> 0 <= at_ prices i - at_ prices (i - 1)) ->
  calculateRSI (Some prices) period = Some 100.
Proof.
  intros Hp Hl H. unfold calculateRSI.
  destruct (Nat.leb_spec (length prices) period); [lia|].
  destruct (foldl _ _ _) as [gains losses] eqn:F.
  pose proof (rsi_fold_no_loss prices (seq 1 period) (0, 0)) as HL.
  rewrite F in HL. simpl in HL. rewrite HL.
  - assert (E : Qeq_bool (0 / num period) 0 = true).
    { apply Qeq_bool_iff. pose proof (num_pos period Hp). field. lra. }
    rewrite E. reflexivity.
  - intros i Hi. apply H. apply elem_of_seq in Hi. lia.
Qed.

Lemma calculateRSI_leading prices period :
  oQeq (calculateRSI (Some prices) period) (rsi_leading prices period).
Proof.
  unfold calculateRSI, rsi_leading.
  destruct (Nat.leb_spec (length prices) period) as [H|H]; [exact I|].
  destruct (foldl _ _ _) as [gains losses] eqn:F.
  destruct (rsi_fold_sums prices period gains losses H F) as [Hg Hl].
  unfold rsi_of_deltas.
  rewrite (Qeq_bool_proper (losses / num period)
             (loss_sum (take period (deltas prices)) / num period) 0 0)
    by (rewrite ?Hl; reflexivity).
  destruct (Qeq_bool _ 0); simpl; [reflexivity|].
  rewrite Hg, Hl. reflexivity.
Qed.

Lemma calculateRSI_take prices period :
  (period < length prices)%nat ->
  calculateRSI (Some prices) period
  = calculateRSI (Some (take (S period) prices)) period.
Proof.
  intros H. unfold calculateRSI.
  rewrite length_take.
  destruct (Nat.leb_spec (length prices) period); [lia|].
  destruct (Nat.leb_spec (S period `min` length prices) period); [lia|].
  rewrite !rsi_fold_changes.
  replace ((fun i => at_ (take (S period) prices) i
                     - at_ (take (S period) prices) (i - 1)) <$> seq 1 period)
    with ((fun i => at_ prices i - at_ prices (i - 1)) <$> seq 1 period);
    [reflexivity|].
  apply list_fmap_ext. intros j i Hi.
  apply lookup_seq in Hi as [-> Hj]. rewrite !at_take by lia. reflexivity.
Qed.

Lemma leading_trailing_same series period :
  length series = S period -> rsi_leading series period = rsi_trailing series period.
Proof.
  intros H. unfold rsi_leading, rsi_trailing.
  rewrite lastn_drop, length_deltas, H.
  replace (S period - 1 - period)%nat with 0%nat by lia.
  rewrite take_ge by (rewrite length_deltas; lia). reflexivity.
Qed.

(** The deltas between the last 15 points are the last 14 deltas. *)
Lemma trailing_deltas prices :
  (15 <= length prices)%nat ->
  take 14 (deltas (slice_neg 15 prices)) = lastn 14 (deltas prices).
Proof.
  intros H. unfold slice_neg.
  rewrite deltas_drop, lastn_drop, length_deltas.
  replace (length prices - 1 - 14)%nat with (length prices - 15)%nat by lia.
  apply take_ge. rewrite length_drop, length_deltas. lia.
Qed.

(** [fetchMarketChart] passes the last 15 prices, so that the deltas used
    there are the last 14 of the history. *)
Lemma rsi14_trailing prices :
  oQeq (calculateRSI (Some (slice_neg 15 prices)) 14) (rsi_trailing prices 14).
Proof.
  pose proof (calculateRSI_leading (slice_neg 15 prices) 14) as H.
  unfold rsi_leading, rsi_trailing in *.
  rewrite length_slice_neg in H by lia.
  destruct (Nat.leb_spec (length prices) 14) as [Hl|Hl].
  - destruct (Nat.leb_spec (15 `min` length prices) 14); [assumption | lia].
  - destruct (Nat.leb_spec (15 `min` length prices) 14); [lia|].
    rewrite trailing_deltas in H by lia. assumption.
Qed.

(** ** The claims on the RSI *)

(** C4 (amended).  For a positive period and a series of more than [period]
    points, [calculateRSI] is [100 - 100 / (1 + avgGain / avgLoss)], or 100
    when the average loss is zero, the averages being taken over the first
    [period] deltas of the series: the result depends only on the first
    [period + 1] points.  On exactly [period + 1] points these are the last
    [period] deltas, and [fetchMarketChart], which passes the last 15
    prices, gets the RSI of the last 14 deltas of the history.  On a shorter
    series the result is absent. *)
Theorem calculateRSI_leading_deltas (series : list Q) (period : nat) :
  (0 < period)%nat ->
  oQeq (calculateRSI (Some series) period) (rsi_leading series period)
  /\ ((period < length series)%nat ->
      calculateRSI (Some series) period
      = calculateRSI (Some (take (S period) series)) period)
  /\ (length series = S period ->
      rsi_leading series period = rsi_trailing series period)
  /\ ((length series <= period)%nat -> calculateRSI (Some series) period = None)
  /\ (forall pairs,
        oQeq (rsi14 (fetchMarketChart (Some pairs))) (rsi_trailing pairs.*2 14)).
Proof.
  intros Hp. split_and!.
  - apply calculateRSI_leading.
  - apply calculateRSI_take.
  - apply leading_trailing_same.
  - intros H. unfold calculateRSI.
    destruct (Nat.leb_spec (length series) period); [reflexivity | lia].
  - intros pairs. unfold fetchMarketChart.
    destruct pairs as [|p pairs]; [exact I|].
    cbn [length Nat.eqb rsi14]. apply rsi14_trailing.
Qed.

Lemma calculateRSI_leading_deltas_witness :
  (0 < 1)%nat
  /\ oQeq (calculateRSI (Some [1; 2; 1]) 1) (rsi_leading [1; 2; 1] 1)
  /\ ((1 < length [1; 2; 1])%nat ->
      calculateRSI (Some [1; 2; 1]) 1
      = calculateRSI (Some (take 2 [1; 2; 1])) 1)
  /\ (length [1; 2; 1] = 2%nat ->
      rsi_leading [1; 2; 1] 1 = rsi_trailing [1; 2; 1] 1)
  /\ ((length [1; 2; 1] <= 1)%nat -> calculateRSI (Some [1; 2; 1]) 1 = None)
  /\ (forall pairs,
        oQeq (rsi14 (fetchMarketChart (Some pairs))) (rsi_trailing pairs.*2 14)).
Proof.
  split; [lia|]. apply (calculateRSI_leading_deltas [1; 2; 1] 1). lia.
Defined.

(** C4 as stated fails: on the three points 1, 2, 1 with period 1 the last
    delta is a fall, which gives 0, while the script reads the first delta,
    a rise, and answers 100. *)
Lemma calculateRSI_not_trailing :
  ~ oQeq (calculateRSI (Some [1; 2; 1]) 1) (rsi_trailing [1; 2; 1] 1).
Proof. vm_compute. discriminate. Qed.

(** C5 (amended).  On a series of at least 15 points [calculateRSI] with
    period 14 answers a value between 0 and 100, and exactly 100 when the 14
    deltas between its first 15 points are all non-negative.  Applied to the
    last 15 points, as [fetchMarketChart] does, it answers a value between 0
    and 100, and exactly 100 when the 14 trailing deltas of the series are
    all non-negative. *)
Theorem calculateRSI14_bounds (series : list Q) :
  (15 <= length series)%nat ->
  (exists r, calculateRSI (Some series) 14 = Some r
     /\ 0 <= r <= 100
     /\ ((forall d, d ∈ take 14 (deltas series) -> 0 <= d) -> r = 100))
  /\ (exists r, calculateRSI (Some (slice_neg 15 series)) 14 = Some r
        /\ 0 <= r <= 100
        /\ ((forall d, d ∈ lastn 14 (deltas series) -> 0 <= d) -> r = 100)).
Proof.
  assert (leading : forall prices, (15 <= length prices)%nat ->
            exists r, calculateRSI (Some prices) 14 = Some r
              /\ 0 <= r <= 100
              /\ ((forall d, d ∈ take 14 (deltas prices) -> 0 <= d) -> r = 100)).
  { intros prices H.
    destruct (calculateRSI_some prices 14) as [r Hr]; [lia|].
    exists r. split; [assumption|]. split.
    - apply (calculateRSI_range prices 14 r); [lia | assumption].
    - intros Hd.
      rewrite calculateRSI_no_loss in Hr; [congruence | lia | lia |].
      intros i Hi. apply Hd.
      apply list_elem_of_lookup. exists (i - 1)%nat.
      rewrite lookup_take_lt by lia.
      rewrite lookup_deltas by lia.
      replace (S (i - 1)) with i by lia. reflexivity. }
  intros H. split; [apply leading, H|].
  destruct (leading (slice_neg 15 series)) as (r & Hr & Hb & H100).
  { rewrite length_slice_neg by lia. lia. }
  exists r. split; [assumption|]. split; [assumption|].
  rewrite <- trailing_deltas by assumption. exact H100.
Qed.

Lemma calculateRSI14_bounds_witness :
  (15 <= length series16)%nat
  /\ (exists r, calculateRSI (Some series16) 14 = Some r
        /\ 0 <= r <= 100
        /\ ((forall d, d ∈ take 14 (deltas series16) -> 0 <= d) -> r = 100))
  /\ (exists r, calculateRSI (Some (slice_neg 15 series16)) 14 = Some r
        /\ 0 <= r <= 100
        /\ ((forall d, d ∈ lastn 14 (deltas series16) -> 0 <= d) -> r = 100)).
Proof.
  assert (H : (15 <= length series16)%nat) by (simpl; lia).
  split; [exact H|]. apply (calculateRSI14_bounds series16 H).
Defined.

(** C5 as stated fails: the last 14 deltas of [series16] are all zero, yet
    the script reads the first 14, which hold the fall, and answers 0. *)
Lemma calculateRSI14_trailing_fails :
  (15 <= length series16)%nat
  /\ (forall d, d ∈ lastn 14 (deltas series16) -> 0 <= d)
  /\ ~ oQeq (calculateRSI (Some series16) 14) (Some 100).
Proof.
  split; [vm_compute; lia|].
  split; [apply forallb_nonneg; vm_compute; reflexivity|].
  vm_compute. discriminate.
Qed.

(** C10.  A change of exactly zero takes the gain branch of the loop, and a
    series of more than [period] points whose first [period] changes are all
    zero has RSI exactly 100. *)
Theorem zero_delta_is_gain (series : list Q) (period : nat) :
  (0 < period)%nat -> (period < length series)%nat ->
  (forall i, (1 <= i <= period)%nat -> at_ series i - at_ series (i - 1) == 0) ->
  (forall acc i, (1 <= i <= period)%nat ->
     rsi_step series acc i = (acc.1 + (at_ series i - at_ series (i - 1)), acc.2))
  /\ calculateRSI (Some series) period = Some 100.
Proof.
  intros Hp Hl Hz.
  assert (Hn : forall i, (1 <= i <= period)%nat ->
                 0 <= at_ series i - at_ series (i - 1)).
  { intros i Hi. rewrite (Hz i Hi). lra. }
  split.
  - intros acc i Hi. unfold rsi_step.
    assert (E : Qle_bool 0 (at_ series i - at_ series (i - 1)) = true)
      by (apply Qle_bool_iff, Hn, Hi).
    rewrite E. reflexivity.
  - apply calculateRSI_no_loss; assumption.
Qed.

Lemma zero_delta_is_gain_witness :
  (0 < 2)%nat /\ (2 < length [5; 5; 5])%nat
  /\ (forall i, (1 <= i <= 2)%nat -> at_ [5; 5; 5] i - at_ [5; 5; 5] (i - 1) == 0)
  /\ (forall acc i, (1 <= i <= 2)%nat ->
        rsi_step [5; 5; 5] acc i
        = (acc.1 + (at_ [5; 5; 5] i - at_ [5; 5; 5] (i - 1)), acc.2))
  /\ calculateRSI (Some [5; 5; 5]) 2 = Some 100.
Proof.
  assert (Hz : forall i, (1 <= i <= 2)%nat ->
                 at_ [5; 5; 5] i - at_ [5; 5; 5] (i - 1) == 0).
  { intros i Hi. assert (Hc : i = 1%nat \/ i = 2%nat) by lia.
    destruct Hc as [-> | ->]; reflexivity. }
  split; [lia|]. split; [simpl; lia|]. split; [exact Hz|].
  apply (zero_delta_is_gain [5; 5; 5] 2); [lia | simpl; lia | exact Hz].
Defined.

(** ** Number formatting *)

Lemma append_empty (str : string) : (str +:+ EmptyString)%string = str.
Proof.
  induction str as [|ch str IH]; [reflexivity|].
  change (String ch str +:+ EmptyString)%string with (String ch (str +:+ EmptyString)).
  rewrite IH. reflexivity.
Qed.

Lemma scale_small fuel value :
  value < 1000 -> scale fuel value 0 = (value, 0%nat).
Proof.
  intros H. destruct fuel as [|fuel]; [reflexivity|]. simpl.
  assert (E : Qle_bool 1000 value = false).
  { destruct (Qle_bool 1000 value) eqn:E; [|reflexivity].
    apply Qle_bool_iff in E. lra. }
  rewrite E. reflexivity.
Qed.

(** The fuel of [scale] never cuts the loop short: it stops on the
    condition of the [while]. *)
Lemma scale_exits fuel : forall scaled unitIndex,
  (unitIndex + fuel = length units - 1)%nat ->
  Qle_bool 1000 (scale fuel scaled unitIndex).1
  && ((scale fuel scaled unitIndex).2 <? length units - 1)%nat = false.
Proof.
  induction fuel as [|fuel IH]; intros scaled unitIndex H; cbn [scale].
  - cbn [fst snd]. replace unitIndex with (length units - 1)%nat by lia.
    rewrite Nat.ltb_irrefl. apply andb_false_r.
  - destruct (Qle_bool 1000 scaled && (unitIndex <? length units - 1)%nat) eqn:E.
    + apply IH. lia.
    + exact E.
Qed.

(** C6 (amended).  A value below 1000 is not compacted: it gets no unit, and
    two decimals below 100, none from 100 on.  12,345,678 gives "$12.35M"
    and 999 gives "$999". *)
Theorem formatLargeNumber_examples (value : Q) :
  value < 1000 ->
  formatLargeNumber (Some value)
  = ("$" +:+ toFixed value (if Qlt_bool value 100 then 2 else 0))%string
  /\ formatLargeNumber (Some 12345678) = "$12.35M"%string
  /\ formatLargeNumber (Some 999) = "$999"%string.
Proof.
  intros H. split; [|split; vm_compute; reflexivity].
  unfold formatLargeNumber. rewrite scale_small by assumption.
  change (default EmptyString (units !! 0%nat)) with EmptyString.
  rewrite append_empty. reflexivity.
Qed.

Lemma formatLargeNumber_examples_witness :
  50 < 1000
  /\ formatLargeNumber (Some 50)
     = ("$" +:+ toFixed 50 (if Qlt_bool 50 100 then 2 else 0))%string
  /\ formatLargeNumber (Some 12345678) = "$12.35M"%string
  /\ formatLargeNumber (Some 999) = "$999"%string.
Proof.
  split; [reflexivity|]. apply (formatLargeNumber_examples 50). reflexivity.
Defined.

(** C6 as stated fails: 999 is not below 100, so it is printed without
    decimals. *)
Lemma formatLargeNumber_999 : formatLargeNumber (Some 999) <> "$999.00"%string.
Proof. vm_compute. discriminate. Qed.

(** ** The moving averages *)

Lemma foldl_Qplus l : forall acc, foldl Qplus acc l == acc + foldr Qplus 0 l.
Proof.
  induction l as [|x l IH]; intros acc; simpl; [ring|].
  rewrite IH. ring.
Qed.

Lemma sum_mean l : sum l / num (length l) == mean l.
Proof.
  unfold sum, mean. rewrite foldl_Qplus.
  assert (H : 0 + foldr Qplus 0 l == foldr Qplus 0 l) by ring.
  rewrite H. reflexivity.
Qed.

(** C7.  The 50- and 200-day averages of [fetchMarketChart] are
    [movingAverage] at the windows 50 and 200.  For a positive window,
    [movingAverage] is absent on the empty series and otherwise the
    arithmetic mean of the last [window] points: of the whole series when it
    is shorter than the window, and of its suffix of [window] points
    otherwise.  On 10, 20, 30 with window 50 it is 20. *)
Theorem movingAverage_trailing_mean (series : list Q) (window : nat) :
  (0 < window)%nat ->
  (forall pairs,
     avg50 (fetchMarketChart (Some pairs)) = movingAverage pairs.*2 50
     /\ avg200 (fetchMarketChart (Some pairs)) = movingAverage pairs.*2 200)
  /\ (series = [] -> movingAverage series window = None)
  /\ (series <> [] ->
      oQeq (movingAverage series window) (Some (mean (lastn window series))))
  /\ ((length series < window)%nat -> lastn window series = series)
  /\ (forall older recent, series = older ++ recent -> length recent = window ->
        lastn window series = recent)
  /\ oQeq (movingAverage [10; 20; 30] 50) (Some 20).
Proof.
  intros Hw. split_and!.
  - intros pairs. unfold fetchMarketChart, movingAverage.
    rewrite length_fmap. destruct (length pairs =? 0)%nat; split; reflexivity.
  - intros ->. reflexivity.
  - intros Hne. unfold movingAverage.
    destruct series as [|a series]; [congruence|].
    cbn [length Nat.eqb oQeq].
    rewrite slice_neg_lastn by assumption. apply sum_mean.
  - intros H. rewrite lastn_drop.
    replace (length series - window)%nat with 0%nat by lia. reflexivity.
  - intros older recent -> Hl. rewrite lastn_drop, length_app, Hl.
    replace (length older + window - window)%nat with (length older) by lia.
    apply drop_app_length.
  - vm_compute. reflexivity.
Qed.

Lemma movingAverage_trailing_mean_witness :
  (0 < 2)%nat
  /\ (forall pairs,
        avg50 (fetchMarketChart (Some pairs)) = movingAverage pairs.*2 50
        /\ avg200 (fetchMarketChart (Some pairs)) = movingAverage pairs.*2 200)
  /\ ([10; 20; 30] = [] -> movingAverage [10; 20; 30] 2 = None)
  /\ ([10; 20; 30] <> [] ->
      oQeq (movingAverage [10; 20; 30] 2) (Some (mean (lastn 2 [10; 20; 30]))))
  /\ ((length [10; 20; 30] < 2)%nat -> lastn 2 [10; 20; 30] = [10; 20; 30])
  /\ (forall older recent, [10; 20; 30] = older ++ recent -> length recent = 2%nat ->
        lastn 2 [10; 20; 30] = recent)
  /\ oQeq (movingAverage [10; 20; 30] 50) (Some 20).
Proof.
  split; [lia|]. apply (movingAverage_trailing_mean [10; 20; 30] 2). lia.
Defined.

(** ** The volume to market-cap ratio *)

(** C8.  The ratio of a row is the volume divided by the market cap when the
    market cap is positive, and absent when it is zero, negative or unknown;
    it is absent for 500 over 0 and one half for 500 over 1000. *)
Theorem ratio_volume_over_cap (coin : Coin) :
  (forall cap, market_cap coin = Some cap -> 0 < cap ->
     IndicatorPage.ratio coin = Some (total_volume coin / cap))
  /\ (forall cap, market_cap coin = Some cap -> cap <= 0 ->
        IndicatorPage.ratio coin = None)
  /\ (market_cap coin = None -> IndicatorPage.ratio coin = None)
  /\ IndicatorPage.ratio (sample_coin "a" 500 (Some 0)) = None
  /\ oQeq (IndicatorPage.ratio (sample_coin "a" 500 (Some 1000))) (Some (1 # 2)).
Proof.
  unfold IndicatorPage.ratio. split_and!.
  - intros cap -> H.
    assert (E1 : Qeq_bool cap 0 = false).
    { destruct (Qeq_bool cap 0) eqn:E; [|reflexivity].
      apply Qeq_bool_iff in E. lra. }
    assert (E2 : Qlt_bool 0 cap = true) by (apply Qlt_bool_iff; assumption).
    rewrite E1, E2. reflexivity.
  - intros cap -> H.
    assert (E2 : Qlt_bool 0 cap = false).
    { destruct (Qlt_bool 0 cap) eqn:E; [|reflexivity].
      apply Qlt_bool_iff in E. lra. }
    rewrite E2, andb_false_r. reflexivity.
  - intros ->. reflexivity.
  - reflexivity.
  - vm_compute. reflexivity.
Qed.

Lemma ratio_volume_over_cap_witness :
  IndicatorPage.ratio (sample_coin "a" 500 (Some 1000)) = Some (500 / 1000).
Proof.
  apply (ratio_volume_over_cap (sample_coin "a" 500 (Some 1000)));
    reflexivity.
Defined.

(** ** Switching the timeframe *)

(** When every canvas is in the document, [updateAllCharts] does not throw
    and redraws the chart of each coin. *)
Lemma drawAll_spec tf canvases coins : forall index charts,
  (forall i, (index <= i < index + length coins)%nat -> i ∈ canvases) ->
  (drawAll tf canvases coins index charts).2 = false
  /\ forall i,
      (drawAll tf canvases coins index charts).1 !! i
      = if decide (index <= i < index + length coins)%nat
        then drawChart tf <$> coins !! (i - index)%nat
        else charts !! i.
Proof.
  induction coins as [|coin rest IH]; intros index charts H; cbn [drawAll].
  - split; [reflexivity|]. intros i. cbn [length].
    destruct (decide _); [lia | reflexivity].
  - rewrite bool_decide_eq_true_2 by (apply H; cbn [length]; lia).
    destruct (IH (S index) (<[index := drawChart tf coin]> charts)) as [H1 H2].
    { intros i Hi. apply H. cbn [length]. lia. }
    split; [assumption|]. intros i. rewrite H2. cbn [length].
    destruct (decide (S index <= i < S index + length rest)%nat) as [Hi|Hi].
    + destruct (decide (index <= i < index + S (length rest))%nat); [|lia].
      replace (i - index)%nat with (S (i - S index)) by lia. reflexivity.
    + destruct (decide (index <= i < index + S (length rest))%nat) as [Hj|Hj].
      * assert (i = index) as -> by lia.
        rewrite lookup_insert_eq, Nat.sub_diag. reflexivity.
      * rewrite lookup_insert_ne by lia. reflexivity.
Qed.

Lemma updateAllCharts_frame s :
  (updateAllCharts s).1 = set_chartInstances (chartInstances (updateAllCharts s).1) s.
Proof.
  unfold updateAllCharts. destruct (drawAll _ _ _ _ _) as [charts threw]. reflexivity.
Qed.

(** Once [Promise.all] has resolved no drawing throws: the rows are in the
    document before the charts are drawn. *)
Lemma fetchData_finish_post (s : State) (order : Order) (coins : list Enriched) :
  let s' := fetchData_finish s order coins in
  coinsData s' = coins
  /\ coinsOrder s' = Some order
  /\ tbody s' = tbody s ++ seq 0 (length coins)
  /\ (forall i coin, coins !! i = Some coin ->
        chartInstances s' !! i = Some (drawChart (chartTimeframe s) coin))
  /\ loadingShown s' = false
  /\ contentHidden s' = false
  /\ loadingText s' = loadingText s
  /\ console s' = console s
  /\ refreshTimer s' = Some (nextTimer s)
  /\ timers s' = {[nextTimer s]} ∪ timers s
  /\ requests s' = requests s
  /\ cycles s' = cycles s
  /\ currentOrder s' = currentOrder s
  /\ chartTimeframe s' = chartTimeframe s.
Proof.
  intros s'. subst s'. unfold fetchData_finish, updateAllCharts. cbv zeta.
  cbn [chartTimeframe tbody coinsData chartInstances
       set_coinsOrder set_coinsData set_tbody].
  destruct (drawAll_spec (chartTimeframe s) (tbody s ++ seq 0 (length coins))
              coins 0 (chartInstances s)) as [Hn Hd].
  { intros i Hi. apply elem_of_app. right. apply elem_of_seq. lia. }
  destruct (drawAll _ _ _ _ _) as [charts threw]. cbn [fst snd] in *. subst threw.
  cbn. split_and!; try reflexivity.
  intros i coin Hc. rewrite Hd. apply lookup_lt_Some in Hc as Hlt.
  destruct (decide _); [|lia]. rewrite Nat.sub_0_r, Hc. reflexivity.
Qed.



Lemma at_last (l : list Q) : at_ l (length l - 1) = default 0 (last l).
Proof.
  unfold at_. rewrite last_lookup.
  replace (length l - 1)%nat with (Nat.pred (length l)) by lia. reflexivity.
Qed.

Lemma at_head (l : list Q) : at_ l 0 = default 0 (head l).
Proof. destruct l; reflexivity. Qed.





(** ** The enrichment *)

Lemma fetchData_finish_coinsData s order coins :
  coinsData (fetchData_finish s order coins) = coins.
Proof.
  unfold fetchData_finish, updateAllCharts.
  destruct (drawAll _ _ _ _ _) as [charts [|]]; reflexivity.
Qed.

Lemma forallb_is_Some {A} (l : list (option A)) :
  forallb (fun r => bool_decide (is_Some r)) l = true <-> Forall is_Some l.
Proof.
  rewrite forallb_forall, Forall_forall. split.
  - intros H x Hx. apply list_elem_of_In, H in Hx.
    apply bool_decide_eq_true in Hx. exact Hx.
  - intros H x Hx. apply bool_decide_eq_true, H, list_elem_of_In, Hx.
Qed.

Lemma omap_all_Some {A} (l : list (option A)) (out : list A) :
  l = Some <$> out -> omap (fun r => r) l = out.
Proof.
  intros ->. induction out as [|x out IH]; [reflexivity|].
  cbn. rewrite IH. reflexivity.
Qed.

Lemma fetchMarketChart_populated pairs :
  (15 <= length pairs)%nat -> populated (fetchMarketChart (Some pairs)).
Proof.
  intros H. unfold fetchMarketChart.
  destruct (Nat.eqb_spec (length pairs) 0); [lia|].
  unfold populated. cbn [avg50 avg200 rsi14 prices30].
  split_and!; eauto.
  - apply calculateRSI_some. rewrite length_slice_neg, length_fmap by lia. lia.
  - apply slice_neg_nonempty; [lia|].
    destruct pairs; [cbn in H; lia | discriminate].
Qed.

Section Arrival.

Variable data : list Coin.
Variable results : list HistoryResult.
Hypothesis Hlen : length results = length data.
Variable c : nat.
Variable order : Order.

Abbreviation out := (enrich fetchMarketChart data results).
Abbreviation answer i := (default Rejected (results !! i)).

Lemma length_enrich : length out = length data.
Proof. unfold enrich. rewrite length_zip_with. lia. Qed.

Lemma lookup_enrich i coin :
  data !! i = Some coin -> out !! i = Some (settle fetchMarketChart coin (answer i)).
Proof.
  intros H. unfold enrich. rewrite lookup_zip_with, H. cbn.
  destruct (results !! i) as [r|] eqn:E; [reflexivity|].
  apply lookup_ge_None in E. apply lookup_lt_Some in H. lia.
Qed.

Lemma slots_all pending :
  (forall i, (i < length data)%nat -> i ∈ pending) ->
  slots out pending = replicate (length data) None.
Proof.
  intros Hall. apply list_eq. intros i. unfold slots. rewrite list_lookup_imap.
  destruct (decide (i < length data)%nat) as [Hi|Hi].
  - rewrite lookup_replicate_2 by assumption.
    destruct (lookup_lt_is_Some_2 out i) as [r Hr];
      [rewrite length_enrich; assumption|].
    rewrite Hr. cbn. rewrite decide_True; [reflexivity|].
    apply Hall, Hi.
  - rewrite (lookup_ge_None_2 out) by (rewrite length_enrich; lia).
    rewrite (lookup_ge_None_2 (replicate _ _)) by (rewrite length_replicate; lia).
    reflexivity.
Qed.

Lemma slots_none : slots out [] = Some <$> out.
Proof.
  apply list_eq. intros j. unfold slots.
  rewrite list_lookup_imap, list_lookup_fmap.
  destruct (out !! j); [|reflexivity]. cbn.
  rewrite decide_False by apply not_elem_of_nil. reflexivity.
Qed.

Lemma slots_pending i pending :
  (i < length data)%nat -> i ∈ pending -> slots out pending !! i = Some None.
Proof.
  intros Hi Hp. unfold slots. rewrite list_lookup_imap.
  destruct (lookup_lt_is_Some_2 out i) as [r Hr];
    [rewrite length_enrich; assumption|].
  rewrite Hr. cbn. rewrite decide_True by assumption. reflexivity.
Qed.

(** Settling request [i] fills its slot and no other. *)
Lemma slots_insert i coin pending :
  data !! i = Some coin -> i ∉ pending ->
  <[i := Some (settle fetchMarketChart coin (answer i))]> (slots out (i :: pending))
  = slots out pending.
Proof.
  intros Hc Hi. apply list_eq. intros j. unfold slots.
  destruct (decide (j = i)) as [->|Hj].
  - rewrite list_lookup_insert_eq
      by (rewrite length_imap, length_enrich; eapply lookup_lt_Some, Hc).
    rewrite list_lookup_imap, (lookup_enrich i coin Hc). cbn.
    rewrite decide_False by assumption. reflexivity.
  - rewrite list_lookup_insert_ne by congruence.
    rewrite !list_lookup_imap. destruct (out !! j); [|reflexivity]. cbn.
    destruct (decide (j ∈ pending)) as [Hp|Hp].
    + rewrite decide_True by (apply elem_of_cons; right; exact Hp). reflexivity.
    + rewrite decide_False; [reflexivity|].
      intros [?|?]%elem_of_cons; congruence.
Qed.

Lemma slots_not_full j pending :
  (j < length data)%nat -> j ∈ pending ->
  forallb (fun r => bool_decide (is_Some r)) (slots out pending) = false.
Proof.
  intros Hj Hp. apply not_true_is_false. intros H.
  apply forallb_is_Some in H.
  rewrite Forall_lookup in H. specialize (H j None (slots_pending j pending Hj Hp)).
  destruct H as [x Hx]. discriminate.
Qed.

(** Whatever the order in which the pending requests settle, the cycle
    writes the records of [enrich], in the order of the snapshot. *)
Lemma arrival_order_irrelevant pending : forall s,
  NoDup pending -> pending <> [] ->
  (forall i, i ∈ pending -> (i < length data)%nat) ->
  cycles s !! c
  = Some {| url_order := order; stage := AwaitHistories data (slots out pending) |} ->
  coinsData (run IndicatorPage.handle s (history_events c results pending)) = out.
Proof.
  induction pending as [|i pending IH]; intros s Hnd Hne Hlt Hc; [congruence|].
  apply NoDup_cons in Hnd as [Hi Hnd].
  assert (Hil : (i < length data)%nat) by (apply Hlt, elem_of_cons; left; reflexivity).
  destruct (lookup_lt_is_Some_2 data i Hil) as [coin Hcoin].
  unfold run, history_events. rewrite fmap_cons. cbn [foldl].
  fold (history_events c results pending).
  fold (run IndicatorPage.handle
          (IndicatorPage.handle s (HistorySettled c i (answer i)))
          (history_events c results pending)).
  cbn [IndicatorPage.handle]. unfold fetchData_history at 1. rewrite Hc, Hcoin.
  rewrite slots_pending by (assumption || (apply elem_of_cons; left; reflexivity)).
  rewrite (slots_insert i coin pending Hcoin Hi).
  destruct pending as [|j pending].
  - rewrite slots_none.
    assert (F : forallb (fun r => bool_decide (is_Some r)) (Some <$> out) = true).
    { apply forallb_is_Some, Forall_fmap, Forall_true. intros x. cbn. eauto. }
    rewrite F. cbn [history_events fmap list_fmap run foldl].
    rewrite fetchData_finish_coinsData. apply omap_all_Some. reflexivity.
  - assert (Hj : (j < length data)%nat).
    { apply Hlt. apply elem_of_cons. right. apply elem_of_cons. left. reflexivity. }
    rewrite (slots_not_full j) by (assumption || (apply elem_of_cons; left; reflexivity)).
    apply IH; [assumption | congruence | |].
    + intros k Hk. apply Hlt, elem_of_cons. right. exact Hk.
    + destruct (answer i); cbn [cycles set_cycles set_console];
        apply lookup_insert_eq.
Qed.

End Arrival.

(** C3 (amended).  For a batch of [n] snapshots whose history requests end
    as [results] says, the cycle writes exactly [n] records, in the order of
    the snapshot and whatever the order in which the requests settle.  The
    record of a failed request has every indicator absent, and the record of
    a request answered with at least 15 price points has every indicator
    present. *)
Theorem enrich_partial_failure (data : list Coin) (results : list HistoryResult) :
  length results = length data ->
  let out := enrich fetchMarketChart data results in
  length out = length data
  /\ out.*1 = data
  /\ (forall i coin e, out !! i = Some (coin, e) ->
        results !! i = Some Rejected -> absent e)
  /\ (forall i coin e pairs, out !! i = Some (coin, e) ->
        results !! i = Some (Resolved (Some pairs)) ->
        (15 <= length pairs)%nat -> populated e)
  /\ (forall s c order arrival,
        arrival ≡ₚ seq 0 (length data) -> data <> [] ->
        cycles s !! c
        = Some {| url_order := order;
                  stage := AwaitHistories data (replicate (length data) None) |} ->
        coinsData (run IndicatorPage.handle s (history_events c results arrival))
        = out).
Proof.
  intros Hlen out. subst out. split_and!.
  - apply length_enrich, Hlen.
  - unfold enrich. revert results Hlen.
    induction data as [|coin data' IH]; intros [|r results] Hlen;
      try discriminate; [reflexivity|].
    cbn [zip_with]. rewrite fmap_cons. f_equal.
    + destruct r; reflexivity.
    + apply IH. cbn [length] in Hlen. lia.
  - intros i coin e Ho Hr. unfold enrich in Ho.
    apply lookup_zip_with_Some in Ho as (coin' & r & Hs & _ & Hr').
    rewrite Hr in Hr'. injection Hr' as <-. cbn [settle] in Hs.
    apply (f_equal snd) in Hs. cbn [snd] in Hs. subst e. repeat split.
  - intros i coin e pairs Ho Hr Hp. unfold enrich in Ho.
    apply lookup_zip_with_Some in Ho as (coin' & r & Hs & _ & Hr').
    rewrite Hr in Hr'. injection Hr' as <-. cbn [settle] in Hs.
    apply (f_equal snd) in Hs. cbn [snd] in Hs. subst e.
    apply fetchMarketChart_populated, Hp.
  - intros s c order arrival Hperm Hne Hc.
    apply (arrival_order_irrelevant data results Hlen c order arrival).
    + rewrite Hperm. apply NoDup_seq.
    + intros ->. apply Permutation_nil_l in Hperm.
      destruct data; [congruence | discriminate].
    + intros i Hi. rewrite Hperm in Hi. apply elem_of_seq in Hi. lia.
    + rewrite slots_all; [assumption | assumption |].
      intros i Hi. rewrite Hperm. apply elem_of_seq. lia.
Qed.

Lemma enrich_partial_failure_witness :
  let data := [sample_coin "a" 500 (Some 1000); sample_coin "b" 5 None] in
  let results := [Rejected; Resolved None] in
  length results = length data
  /\ length (enrich fetchMarketChart data results) = length data
  /\ (enrich fetchMarketChart data results).*1 = data.
Proof.
  intros data results. split; [reflexivity|].
  pose proof (enrich_partial_failure data results eq_refl) as H. cbv zeta in H.
  destruct H as (H1 & H2 & _). split; [exact H1 | exact H2].
Defined.

(** C3 as stated fails: a request answered with three price points has
    succeeded, and its record has no RSI. *)
Lemma short_history_not_populated :
  exists coin e,
    enrich fetchMarketChart [sample_coin "a" 500 (Some 1000)]
      [Resolved (Some short_history)] !! 0%nat = Some (coin, e)
    /\ ~ populated e.
Proof.
  eexists _, _. split; [reflexivity|].
  intros (_ & _ & [r Hr] & _). vm_compute in Hr. discriminate.
Qed.

(** ** The refresh loop of the indicator page *)

Lemma fetchData_start_fetching s :
  cycles s = ∅ -> (forall t, t ∈ timers s -> refreshTimer s = Some t) ->
  IndicatorPage.fetching (fetchData_start s).
Proof.
  intros Hc Ht.
  exists (nextCycle s), {| url_order := currentOrder s; stage := AwaitSnapshot |}.
  unfold fetchData_start. cbv zeta.
  cbn [refreshTimer set_loadingShown set_contentHidden set_tbody].
  destruct (refreshTimer s) as [t|] eqn:E;
    cbn [cycles timers refreshTimer loadingShown nextCycle currentOrder
         set_loadingShown set_contentHidden set_tbody set_refreshTimer
         set_timers set_requests set_cycles set_nextCycle];
    rewrite Hc; split_and!; try reflexivity.
  - apply set_eq. intros t'. split; [|intros []%not_elem_of_empty].
    intros Ht'. apply elem_of_difference in Ht' as [Ht' Hne].
    apply Ht in Ht'. exfalso. apply Hne, elem_of_singleton. congruence.
  - apply set_eq. intros t'. split; [|intros []%not_elem_of_empty].
    intros Ht'. apply Ht in Ht'. congruence.
  - exact E.
Qed.

Lemma fetchData_catch_waiting s :
  cycles s = ∅ -> timers s = ∅ -> IndicatorPage.waiting (fetchData_catch s).
Proof.
  intros Hc Ht. split; [exact Hc|]. intros t. cbn. rewrite Ht.
  intros []%not_elem_of_empty.
Qed.

Lemma fetchData_finish_waiting s order coins :
  cycles s = ∅ -> timers s = ∅ ->
  IndicatorPage.waiting (fetchData_finish s order coins).
Proof.
  intros Hc Ht. unfold fetchData_finish, updateAllCharts.
  destruct (drawAll _ _ _ _ _) as [charts [|]].
  - apply fetchData_catch_waiting; assumption.
  - split; [exact Hc|]. intros t. cbn. rewrite Ht.
    intros [->%elem_of_singleton | []%not_elem_of_empty]%elem_of_union.
    reflexivity.
Qed.

(** While a cycle is under way it is the only one: [Hc], the lookup of a
    cycle, then names it. *)
Ltac sole_cycle IH Hc Hcs Ht Hrt Hl :=
  let c' := fresh "c" in
  let cy := fresh "cy" in
  let Hw := fresh "Hw" in
  destruct IH as [[Hw _] | (c' & cy & Hcs & Ht & Hrt & Hl)];
    [rewrite Hw in Hc; discriminate|];
  rewrite Hcs in Hc; apply lookup_singleton_Some in Hc as [-> ->].

(** The page is always either between two cycles or in one: in particular
    two cycles are never under way together on the indicator page. *)
Lemma reachable_inv s :
  IndicatorPage.reachable s -> IndicatorPage.waiting s \/ IndicatorPage.fetching s.
Proof.
  induction 1 as [|s e Hr IH Hne].
  - right. apply fetchData_start_fetching; [reflexivity|].
    intros t []%not_elem_of_empty.
  - destruct e; try congruence; cbn [IndicatorPage.handle]; try exact IH.
    + unfold timer_fires. destruct (bool_decide (t ∈ timers s)) eqn:E; [|exact IH].
      apply bool_decide_eq_true in E.
      destruct IH as [[Hc Ht] | (c & cy & _ & Ht & _)];
        [|rewrite Ht in E; destruct (not_elem_of_empty (C:=gset nat) t E)].
      right. apply fetchData_start_fetching; [exact Hc|].
      intros t'. cbn [timers set_timers refreshTimer]. intros Ht'.
      apply Ht. apply elem_of_difference in Ht' as [Ht' _]. exact Ht'.
    + unfold fetchData_snapshot.
      destruct (cycles s !! c) as [[order [|data results]]|] eqn:Hc; try exact IH.
      sole_cycle IH Hc Hcs Ht Hrt Hl.
      destruct response as [data|]; [destruct (length data =? 0)%nat|].
      * left. apply fetchData_finish_waiting; cbn; [|assumption].
        rewrite Hcs. apply delete_singleton_eq.
      * right. eexists c, _. cbn. rewrite Hcs.
        split_and!; [apply insert_singleton_eq | assumption..].
      * left. apply fetchData_catch_waiting; cbn; [|assumption].
        rewrite Hcs. apply delete_singleton_eq.
    + unfold fetchData_history.
      destruct (cycles s !! c) as [[order [|data results]]|] eqn:Hc; try exact IH.
      destruct (data !! i) as [coin|]; [|exact IH].
      destruct (results !! i) as [[r|]|]; try exact IH.
      sole_cycle IH Hc Hcs Ht Hrt Hl.
      destruct (forallb _ _).
      * left. apply fetchData_finish_waiting.
        -- destruct result; cbn; rewrite Hcs; apply delete_singleton_eq.
        -- destruct result; cbn; assumption.
      * right. destruct result; eexists c, _; cbn; rewrite Hcs;
          (split_and!; [apply insert_singleton_eq | assumption..]).
Qed.

(** With no timeout pending and no call suspended, nothing happens any
    more. *)
Lemma quiescent s e :
  cycles s = ∅ -> timers s = ∅ -> e <> DOMContentLoaded ->
  IndicatorPage.handle s e = s.
Proof.
  intros Hc Ht He. destruct e; try congruence; cbn [IndicatorPage.handle];
    try reflexivity.
  - unfold timer_fires. rewrite Ht. reflexivity.
  - unfold fetchData_snapshot. rewrite Hc. reflexivity.
  - unfold fetchData_history. rewrite Hc. reflexivity.
Qed.

Lemma quiescent_run events : forall s,
  cycles s = ∅ -> timers s = ∅ -> DOMContentLoaded ∉ events ->
  run IndicatorPage.handle s events = s.
Proof.
  induction events as [|e events IH]; intros s Hc Ht He; [reflexivity|].
  apply not_elem_of_cons in He as [He1 He2].
  unfold run. cbn [foldl]. rewrite quiescent by (assumption || congruence).
  apply IH; assumption.
Qed.

(** C2 (amended).  When the snapshot request of a cycle fails, the loading
    element stays shown with the error message, and the timer is not armed
    again: no timeout is pending and no call is suspended, no request is
    sent, and whatever happens next leaves the page as it is.  There is no
    retry: the refresh loop has stopped. *)
Theorem snapshot_failure_stops_refresh (s : State) (c : nat) (order : Order) :
  IndicatorPage.reachable s ->
  cycles s !! c = Some {| url_order := order; stage := AwaitSnapshot |} ->
  let s' := IndicatorPage.handle s (SnapshotSettled c None) in
  loadingShown s' = true
  /\ loadingText s' = Some error_message
  /\ timers s' = ∅
  /\ refreshTimer s' = None
  /\ cycles s' = ∅
  /\ requests s' = requests s
  /\ forall events, DOMContentLoaded ∉ events ->
       run IndicatorPage.handle s' events = s'.
Proof.
  intros Hr Hc s'.
  destruct (reachable_inv s Hr) as [[Hc' _] | (c' & cy & Hcs & Ht & Hrt & Hl)];
    [rewrite Hc' in Hc; discriminate|].
  assert (Hs : s' = fetchData_catch (set_cycles (delete c (cycles s)) s)).
  { subst s'. cbn [IndicatorPage.handle]. unfold fetchData_snapshot.
    rewrite Hc. reflexivity. }
  rewrite Hcs in Hc. apply lookup_singleton_Some in Hc as [-> _].
  assert (Hd : cycles s' = ∅).
  { rewrite Hs. cbn. rewrite Hcs. apply delete_singleton_eq. }
  assert (Hts : timers s' = ∅) by (rewrite Hs; exact Ht).
  split_and!; try (rewrite Hs; cbn; assumption || reflexivity); try assumption.
  intros events He. apply quiescent_run; assumption.
Qed.

Lemma snapshot_failure_stops_refresh_witness :
  let s := IndicatorPage.handle IndicatorPage.init DOMContentLoaded in
  let s' := IndicatorPage.handle s (SnapshotSettled 0 None) in
  IndicatorPage.reachable s
  /\ cycles s !! 0%nat = Some {| url_order := MARKET_CAP_DESC; stage := AwaitSnapshot |}
  /\ loadingShown s' = true
  /\ loadingText s' = Some error_message
  /\ timers s' = ∅
  /\ refreshTimer s' = None
  /\ cycles s' = ∅
  /\ requests s' = requests s
  /\ forall events, DOMContentLoaded ∉ events ->
       run IndicatorPage.handle s' events = s'.
Proof.
  split; [apply IndicatorPage.reachable_load|]. split; [reflexivity|].
  apply (snapshot_failure_stops_refresh _ 0 MARKET_CAP_DESC
           IndicatorPage.reachable_load).
  reflexivity.
Defined.

(** C2 as stated fails: after the page is loaded and its first snapshot
    request fails, the timer is not armed. *)
Lemma snapshot_failure_not_rearmed :
  ~ IndicatorPage.rearmed
      (run IndicatorPage.handle IndicatorPage.init
         [DOMContentLoaded; SnapshotSettled 0 None]).
Proof.
  intros (t & Ht & _). vm_compute in Ht. discriminate.
Qed.

(** ** The refresh loop of the ranked page *)

(** What clearing the timer achieves: a call of [fetchData] leaves no
    timeout of [refreshTimer] pending, so that the timed refresh cannot
    start during the cycle it begins. *)
Lemma fetchData_start_clears_timer s :
  refreshTimer (fetchData_start s) = None
  /\ forall t, refreshTimer s = Some t -> t ∉ timers (fetchData_start s).
Proof.
  unfold fetchData_start. cbv zeta.
  cbn [refreshTimer set_loadingShown set_contentHidden set_tbody].
  destruct (refreshTimer s) as [t|] eqn:E; cbn; split; try reflexivity.
  - intros t' [= <-]. intros [_ H]%elem_of_difference.
    apply H, elem_of_singleton. reflexivity.
  - exact E.
  - intros t' H. discriminate.
Qed.

(** C1, which the script breaks.  The page is loaded and the volume button
    is clicked before the first snapshot has arrived: a second snapshot
    request leaves and two calls of [fetchData] are suspended together.
    When the cycle by volume is answered first and the one by market cap
    last, the records kept are those of the market-cap request, while the
    order in force is by volume. *)
Theorem order_switch_while_fetching_overlaps :
  let s := run Ranked.handle Ranked.init [DOMContentLoaded; ClickVolume] in
  let s' := run Ranked.handle s overlap_trace in
  size (cycles s) = 2%nat
  /\ requests s = [GetMarkets MARKET_CAP_DESC; GetMarkets VOLUME_DESC]
  /\ currentOrder s' = VOLUME_DESC
  /\ coinsOrder s' = Some MARKET_CAP_DESC
  /\ (id ∘ fst) <$> coinsData s' = ["by-cap"%string].
Proof. vm_compute. split_and!; reflexivity. Qed.

(** * Further properties *)

(** ** What [fetchMarketChart] answers *)

Lemma slice_neg_suffix {A} n (l : list A) :
  exists older, l = older ++ slice_neg n l.
Proof.
  unfold slice_neg. destruct n.
  - exists []. reflexivity.
  - exists (take (length l - S n) l). symmetry. apply take_drop.
Qed.

Lemma slice_neg_all {A} n (l : list A) :
  (length l <= n)%nat -> slice_neg n l = l.
Proof.
  intros H. unfold slice_neg. destruct n; [reflexivity|].
  replace (length l - S n)%nat with 0%nat by lia. reflexivity.
Qed.

Lemma calculateRSI_short prices period :
  (length prices <= period)%nat -> calculateRSI (Some prices) period = None.
Proof.
  intros H. unfold calculateRSI.
  destruct (Nat.leb_spec (length prices) period); [reflexivity | lia].
Qed.

(** X1.  Without prices [fetchMarketChart] answers no indicator.  With
    [n >= 1] prices both averages are there, [prices30] is the suffix of the
    prices of length [min 30 n], and the RSI is there exactly when
    [n >= 15]. *)
Theorem fetchMarketChart_shape (json : option (list (Q * Q))) :
  (json = None \/ json = Some [] -> fetchMarketChart json = no_extra)
  /\ (forall pairs, json = Some pairs -> pairs <> [] ->
        let e := fetchMarketChart json in
        is_Some (avg50 e) /\ is_Some (avg200 e)
        /\ (exists older, pairs.*2 = older ++ prices30 e)
        /\ length (prices30 e) = (30 `min` length pairs)%nat
        /\ (is_Some (rsi14 e) <-> (15 <= length pairs)%nat)).
Proof.
  split.
  - intros [-> | ->]; reflexivity.
  - intros pairs -> Hne e. subst e. unfold fetchMarketChart.
    destruct pairs as [|p pairs]; [congruence|].
    cbn [length Nat.eqb avg50 avg200 prices30 rsi14].
    split_and!; eauto.
    + apply slice_neg_suffix.
    + rewrite length_slice_neg by lia. rewrite length_fmap. reflexivity.
    + split.
      * intros [r Hr].
        destruct (decide (15 <= length (p :: pairs))%nat) as [H|H]; [exact H|].
        rewrite calculateRSI_short in Hr; [discriminate|].
        rewrite length_slice_neg, length_fmap by lia. cbn [length] in *. lia.
      * intros H. apply calculateRSI_some.
        rewrite length_slice_neg, length_fmap by lia. cbn [length] in *. lia.
Qed.

Lemma fetchMarketChart_shape_witness :
  let e := fetchMarketChart (Some short_history) in
  is_Some (avg50 e) /\ is_Some (avg200 e)
  /\ (exists older, short_history.*2 = older ++ prices30 e)
  /\ length (prices30 e) = (30 `min` length short_history)%nat
  /\ (is_Some (rsi14 e) <-> (15 <= length short_history)%nat).
Proof.
  apply (fetchMarketChart_shape (Some short_history)); [reflexivity | discriminate].
Defined.

(** X2.  On a history of at most 50 points the 50-day and the 200-day
    average are the same number, the mean of all the points; the ranked
    page, which averages the whole history, then shows the same average and
    the same 30-day prices as the indicator page. *)
Theorem short_history_averages (pairs : list (Q * Q)) :
  (length pairs <= 50)%nat ->
  avg50 (fetchMarketChart (Some pairs)) = avg200 (fetchMarketChart (Some pairs))
  /\ avg50 (Ranked.fetchMarketChart (Some pairs))
     = avg50 (fetchMarketChart (Some pairs))
  /\ prices30 (Ranked.fetchMarketChart (Some pairs))
     = prices30 (fetchMarketChart (Some pairs)).
Proof.
  intros H. unfold fetchMarketChart, Ranked.fetchMarketChart.
  destruct (length pairs =? 0)%nat; [split_and!; reflexivity|].
  cbn [avg50 avg200 prices30].
  rewrite !(slice_neg_all 50), !(slice_neg_all 200) by (rewrite length_fmap; lia).
  split_and!; reflexivity.
Qed.

Lemma short_history_averages_witness :
  (length short_history <= 50)%nat
  /\ avg50 (fetchMarketChart (Some short_history))
     = avg200 (fetchMarketChart (Some short_history))
  /\ avg50 (Ranked.fetchMarketChart (Some short_history))
     = avg50 (fetchMarketChart (Some short_history))
  /\ prices30 (Ranked.fetchMarketChart (Some short_history))
     = prices30 (fetchMarketChart (Some short_history)).
Proof.
  assert (H : (length short_history <= 50)%nat) by (simpl; lia).
  split; [exact H|]. apply (short_history_averages short_history H).
Defined.

(** ** More on the RSI *)

Lemma oQeq_trans a b c : oQeq a b -> oQeq b c -> oQeq a c.
Proof.
  destruct a, b, c; simpl; auto; try contradiction.
  intros H1 H2. rewrite H1. exact H2.
Qed.

Lemma Qle_bool_false_lt x y : Qle_bool x y = false -> y < x.
Proof.
  intros H. apply Qnot_le_lt. intros Hle. apply Qle_bool_iff in Hle. congruence.
Qed.

Lemma loss_sum_nonneg ds : 0 <= loss_sum ds.
Proof.
  induction ds as [|d ds IH]; [unfold loss_sum; simpl; lra|].
  unfold loss_sum in *. cbn [foldr].
  destruct (Qle_bool 0 d); [lra|].
  pose proof (Qabs_nonneg d). lra.
Qed.

Lemma gain_sum_falls ds : (forall d, d ∈ ds -> d <= 0) -> gain_sum ds == 0.
Proof.
  induction ds as [|d ds IH]; intros H; [reflexivity|].
  unfold gain_sum in *. cbn [foldr].
  rewrite IH by (intros x Hx; apply H, elem_of_cons; right; exact Hx).
  assert (Hd : d <= 0) by (apply H, elem_of_cons; left; reflexivity).
  destruct (Qle_bool 0 d) eqn:E; [|lra].
  apply Qle_bool_iff in E. lra.
Qed.

Lemma loss_sum_fall ds d : d ∈ ds -> d < 0 -> 0 < loss_sum ds.
Proof.
  induction ds as [|x ds IH]; intros Hin Hd; [inversion Hin|].
  unfold loss_sum in *. cbn [foldr].
  apply elem_of_cons in Hin as [<- | Hin].
  - assert (E : Qle_bool 0 d = false).
    { destruct (Qle_bool 0 d) eqn:E; [|reflexivity].
      apply Qle_bool_iff in E. lra. }
    rewrite E. pose proof (loss_sum_nonneg ds) as Hn. unfold loss_sum in Hn.
    rewrite (Qabs_neg d) by lra. lra.
  - specialize (IH Hin Hd).
    destruct (Qle_bool 0 x); [lra|].
    pose proof (Qabs_nonneg x). lra.
Qed.

(** X4.  When none of the first [period] changes is a rise and one of them
    is a fall, the RSI is 0. *)
Theorem calculateRSI_only_falls (series : list Q) (period : nat) :
  (0 < period)%nat -> (period < length series)%nat ->
  (forall d, d ∈ take period (deltas series) -> d <= 0) ->
  (exists d, d ∈ take period (deltas series) /\ d < 0) ->
  oQeq (calculateRSI (Some series) period) (Some 0).
Proof.
  intros Hp Hl Hfalls (d & Hin & Hd).
  eapply oQeq_trans; [apply calculateRSI_leading|].
  unfold rsi_leading.
  destruct (Nat.leb_spec (length series) period); [lia|].
  cbn [oQeq]. unfold rsi_of_deltas.
  set (ds := take period (deltas series)) in *.
  pose proof (gain_sum_falls ds Hfalls) as Hg.
  pose proof (loss_sum_fall ds d Hin Hd) as Hlo.
  pose proof (num_pos period Hp) as Hn.
  assert (Hal : 0 < loss_sum ds / num period).
  { apply Qlt_shift_div_l; [assumption | lra]. }
  assert (E : Qeq_bool (loss_sum ds / num period) 0 = false).
  { destruct (Qeq_bool _ 0) eqn:E; [|reflexivity].
    apply Qeq_bool_iff in E. lra. }
  rewrite E, Hg. field. split; lra.
Qed.

Lemma calculateRSI_only_falls_witness :
  (0 < 2)%nat /\ (2 < length [3; 2; 1])%nat
  /\ oQeq (calculateRSI (Some [3; 2; 1]) 2) (Some 0).
Proof.
  split; [lia|]. split; [simpl; lia|].
  apply (calculateRSI_only_falls [3; 2; 1] 2); [lia | simpl; lia | |].
  - intros d Hd.
    apply (Forall_forall (fun d => d <= 0) (take 2 (deltas [3; 2; 1]))); [|exact Hd].
    repeat constructor; discriminate.
  - exists (2 - 3). split; [|reflexivity].
    apply elem_of_cons. left. reflexivity.
Defined.

(** ** The unit [formatLargeNumber] picks *)





(** ** The charts *)

(** X7.  [drawChart] draws the sparkline of [drawSparkline], the 7-day
    prices coloured by the 24h change, on the 7-day timeframe and also on
    the 30-day timeframe when the record has no 30-day prices, as after a
    failed history request.  Otherwise it draws the 30-day prices, green
    exactly when the last one is not below the first. *)
Theorem drawChart_series (tf : Timeframe) (coin : Enriched) :
  (tf = TF7d \/ prices30 coin.2 = [] ->
     drawChart tf coin
     = Sparkline.drawSparkline (default [] (sparkline_in_7d coin.1))
         (price_change_percentage_24h coin.1))
  /\ (forall first final,
        tf = TF30d -> head (prices30 coin.2) = Some first ->
        last (prices30 coin.2) = Some final ->
        data (drawChart tf coin) = prices30 coin.2
        /\ (borderColor (drawChart tf coin) = Green <-> first <= final)
        /\ (borderColor (drawChart tf coin) = Red <-> final < first)).
Proof.
  unfold drawChart, Sparkline.drawSparkline. split.
  - intros [-> | ->]; [reflexivity|].
    rewrite andb_false_r. reflexivity.
  - intros first final -> Hh Hl.
    rewrite bool_decide_eq_true_2 by reflexivity.
    destruct (prices30 coin.2) as [|p ps] eqn:E; [discriminate|].
    rewrite <- E in *. rewrite at_last, at_head, Hh, Hl.
    assert (F : (length (prices30 coin.2) =? 0)%nat = false)
      by (rewrite E; reflexivity).
    rewrite F. cbn [andb negb data borderColor].
    change (default 0 (Some final)) with final.
    change (default 0 (Some first)) with first.
    split; [reflexivity|].
    destruct (Qle_bool 0 (final - first)) eqn:G.
    + apply Qle_bool_iff in G. split; split; intros H;
        try reflexivity; try discriminate; try lra; exfalso; lra.
    + apply Qle_bool_false_lt in G. split; split; intros H;
        try reflexivity; try discriminate; try lra; exfalso; lra.
Qed.

Lemma drawChart_series_witness :
  drawChart TF30d (sample_coin "a" 500 (Some 1000), no_extra)
  = Sparkline.drawSparkline [] None.
Proof.
  apply (drawChart_series TF30d (sample_coin "a" 500 (Some 1000), no_extra)).
  right. reflexivity.
Defined.

Lemma drawAll_outside tf canvases coins : forall index charts i,
  (i < index \/ index + length coins <= i)%nat ->
  (drawAll tf canvases coins index charts).1 !! i = charts !! i.
Proof.
  induction coins as [|coin rest IH]; intros index charts i Hi; cbn [drawAll];
    [reflexivity|].
  destruct (bool_decide (index ∈ canvases)); [|reflexivity].
  rewrite IH by (cbn [length] in Hi; lia).
  apply lookup_insert_ne. cbn [length] in Hi. lia.
Qed.

Lemma drawAll_throws tf canvases coins : forall index charts,
  (drawAll tf canvases coins index charts).2 = true
  <-> exists j, (index <= j < index + length coins)%nat /\ j ∉ canvases.
Proof.
  induction coins as [|coin rest IH]; intros index charts; cbn [drawAll length].
  - split; [discriminate | intros (j & Hj & _); lia].
  - destruct (bool_decide (index ∈ canvases)) eqn:E.
    + apply bool_decide_eq_true in E. rewrite IH. split.
      * intros (j & Hj & Hn). exists j. split; [lia | exact Hn].
      * intros (j & Hj & Hn). exists j. split; [|exact Hn].
        destruct (decide (j = index)) as [-> | Hne]; [contradiction | lia].
    + apply bool_decide_eq_false in E. split; [|reflexivity].
      intros _. exists index. split; [lia | exact E].
Qed.

Lemma drawAll_drawn tf canvases coins : forall index charts i coin,
  (index <= i)%nat -> coins !! (i - index)%nat = Some coin ->
  (forall j, (index <= j <= i)%nat -> j ∈ canvases) ->
  (drawAll tf canvases coins index charts).1 !! i = Some (drawChart tf coin).
Proof.
  induction coins as [|c rest IH]; intros index charts i coin Hi Hc Hall;
    [discriminate|].
  cbn [drawAll]. rewrite bool_decide_eq_true_2 by (apply Hall; lia).
  destruct (decide (i = index)) as [-> | Hne].
  - rewrite Nat.sub_diag in Hc. injection Hc as ->.
    rewrite drawAll_outside by lia. apply lookup_insert_eq.
  - apply IH; [lia | | intros j Hj; apply Hall; lia].
    replace (i - index)%nat with (S (i - S index)) in Hc by lia. exact Hc.
Qed.

(** X8.  [updateAllCharts] changes nothing but the charts.  It throws
    exactly when the canvas of some row of [coinsData] is not in the
    document; the chart of a row is redrawn from its record when the
    canvases up to that row are there, and no chart beyond the rows of
    [coinsData] is ever touched. *)
Theorem updateAllCharts_effect (s : State) :
  let s' := (updateAllCharts s).1 in
  s' = set_chartInstances (chartInstances s') s
  /\ ((updateAllCharts s).2 = true
      <-> exists j, (j < length (coinsData s))%nat /\ j ∉ tbody s)
  /\ (forall i coin, coinsData s !! i = Some coin ->
        (forall j, (j <= i)%nat -> j ∈ tbody s) ->
        chartInstances s' !! i = Some (drawChart (chartTimeframe s) coin))
  /\ (forall i, (length (coinsData s) <= i)%nat ->
        chartInstances s' !! i = chartInstances s !! i).
Proof.
  intros s'. subst s'. split; [apply updateAllCharts_frame|].
  unfold updateAllCharts.
  pose proof (drawAll_throws (chartTimeframe s) (tbody s) (coinsData s) 0
                (chartInstances s)) as Ht.
  pose proof (drawAll_drawn (chartTimeframe s) (tbody s) (coinsData s) 0
                (chartInstances s)) as Hd.
  pose proof (drawAll_outside (chartTimeframe s) (tbody s) (coinsData s) 0
                (chartInstances s)) as Ho.
  destruct (drawAll _ _ _ _ _) as [charts threw]. cbn [fst snd] in *.
  cbn [chartInstances set_chartInstances]. split_and!.
  - rewrite Ht. split; intros (j & Hj & Hn); exists j; (split; [lia | exact Hn]).
  - intros i coin Hc Hall. apply Hd; [lia | | intros j Hj; apply Hall; lia].
    rewrite Nat.sub_0_r. exact Hc.
  - intros i Hi. apply Ho. lia.
Qed.

Lemma updateAllCharts_effect_witness :
  chartInstances (updateAllCharts Ranked.init).1 !! 0%nat
  = chartInstances Ranked.init !! 0%nat.
Proof.
  apply (updateAllCharts_effect Ranked.init). simpl. lia.
Defined.

(** ** A whole cycle *)

(** X9.  Once [Promise.all] has resolved, [fetchData] cannot fail any more:
    the rows are in the document before the charts are drawn, so that no
    drawing throws.  The records are kept, a row and a chart are made for
    each, the loading element is hidden and the content shown, and the
    timer is armed, whatever the state and the records. *)
Theorem fetchData_finish_effect (s : State) (order : Order) (coins : list Enriched) :
  let s' := fetchData_finish s order coins in
  coinsData s' = coins
  /\ coinsOrder s' = Some order
  /\ tbody s' = tbody s ++ seq 0 (length coins)
  /\ (forall i coin, coins !! i = Some coin ->
        chartInstances s' !! i = Some (drawChart (chartTimeframe s) coin))
  /\ loadingShown s' = false
  /\ contentHidden s' = false
  /\ loadingText s' = loadingText s
  /\ console s' = console s
  /\ refreshTimer s' = Some (nextTimer s)
  /\ timers s' = {[nextTimer s]} ∪ timers s
  /\ requests s' = requests s
  /\ cycles s' = cycles s.
Proof.
  pose proof (fetchData_finish_post s order coins) as H. cbv zeta in *.
  destruct H as (H1 & H2 & H3 & H4 & H5 & H6 & H7 & H8 & H9 & H10 & H11 & H12 & _).
  split_and!; assumption.
Qed.

Section Cycle.

Variable fmc : option (list (Q * Q)) -> Extra.
Variable data : list Coin.
Variable results : list HistoryResult.
Hypothesis Hlen : length results = length data.
Variable c : nat.
Variable order : Order.

Abbreviation records := (enrich fmc data results).
Abbreviation outcome i := (default Rejected (results !! i)).

Lemma length_records : length records = length data.
Proof. unfold enrich. rewrite length_zip_with. lia. Qed.

Lemma lookup_records i coin :
  data !! i = Some coin -> records !! i = Some (settle fmc coin (outcome i)).
Proof.
  intros H. unfold enrich. rewrite lookup_zip_with, H. cbn.
  destruct (results !! i) as [r|] eqn:E; [reflexivity|].
  apply lookup_ge_None in E. apply lookup_lt_Some in H. lia.
Qed.

Lemma record_slots_all pending :
  (forall i, (i < length data)%nat -> i ∈ pending) ->
  slots records pending = replicate (length data) None.
Proof.
  intros Hall. apply list_eq. intros i. unfold slots. rewrite list_lookup_imap.
  destruct (decide (i < length data)%nat) as [Hi|Hi].
  - rewrite lookup_replicate_2 by assumption.
    destruct (lookup_lt_is_Some_2 records i) as [r Hr];
      [rewrite length_records; assumption|].
    rewrite Hr. cbn. rewrite decide_True; [reflexivity|].
    apply Hall, Hi.
  - rewrite (lookup_ge_None_2 records) by (rewrite length_records; lia).
    rewrite (lookup_ge_None_2 (replicate _ _)) by (rewrite length_replicate; lia).
    reflexivity.
Qed.

Lemma record_slots_none : slots records [] = Some <$> records.
Proof.
  apply list_eq. intros j. unfold slots.
  rewrite list_lookup_imap, list_lookup_fmap.
  destruct (records !! j); [|reflexivity]. cbn.
  rewrite decide_False by apply not_elem_of_nil. reflexivity.
Qed.

Lemma record_slots_pending i pending :
  (i < length data)%nat -> i ∈ pending -> slots records pending !! i = Some None.
Proof.
  intros Hi Hp. unfold slots. rewrite list_lookup_imap.
  destruct (lookup_lt_is_Some_2 records i) as [r Hr];
    [rewrite length_records; assumption|].
  rewrite Hr. cbn. rewrite decide_True by assumption. reflexivity.
Qed.

Lemma record_slots_insert i coin pending :
  data !! i = Some coin -> i ∉ pending ->
  <[i := Some (settle fmc coin (outcome i))]> (slots records (i :: pending))
  = slots records pending.
Proof.
  intros Hc Hi. apply list_eq. intros j. unfold slots.
  destruct (decide (j = i)) as [->|Hj].
  - rewrite list_lookup_insert_eq
      by (rewrite length_imap, length_records; eapply lookup_lt_Some, Hc).
    rewrite list_lookup_imap, (lookup_records i coin Hc). cbn.
    rewrite decide_False by assumption. reflexivity.
  - rewrite list_lookup_insert_ne by congruence.
    rewrite !list_lookup_imap. destruct (records !! j); [|reflexivity]. cbn.
    destruct (decide (j ∈ pending)) as [Hp|Hp].
    + rewrite decide_True by (apply elem_of_cons; right; exact Hp). reflexivity.
    + rewrite decide_False; [reflexivity|].
      intros [?|?]%elem_of_cons; congruence.
Qed.

Lemma record_slots_not_full j pending :
  (j < length data)%nat -> j ∈ pending ->
  forallb (fun r => bool_decide (is_Some r)) (slots records pending) = false.
Proof.
  intros Hj Hp. apply not_true_is_false. intros H.
  apply forallb_is_Some in H.
  rewrite Forall_lookup in H.
  specialize (H j None (record_slots_pending j pending Hj Hp)).
  destruct H as [x Hx]. discriminate.
Qed.

(** One history request settles, on a page set aside by [park]. *)
Lemma history_step s suspended log i coin pending :
  data !! i = Some coin -> i ∉ pending ->
  (forall j, j ∈ pending -> (j < length data)%nat) ->
  suspended !! c
  = Some {| url_order := order;
            stage := AwaitHistories data (slots records (i :: pending)) |} ->
  fetchData_history fmc (Runs.park s suspended log) c i (outcome i)
  = match pending with
    | [] =>
      fetchData_finish
        (Runs.park s (delete c suspended)
           (log ++ Runs.history_errors data results [i])) order records
    | _ =>
      Runs.park s
        (<[c := {| url_order := order;
                   stage := AwaitHistories data (slots records pending) |}]> suspended)
        (log ++ Runs.history_errors data results [i])
    end.
Proof.
  intros Hcoin Hi Hlt Hc.
  assert (Hil : (i < length data)%nat) by (eapply lookup_lt_Some, Hcoin).
  unfold fetchData_history.
  cbn [Runs.park cycles set_cycles set_console]. rewrite Hc, Hcoin.
  rewrite record_slots_pending by (assumption || (apply elem_of_cons; left; reflexivity)).
  rewrite (record_slots_insert i coin pending Hcoin Hi).
  unfold Runs.history_errors. cbn [omap list_omap]. rewrite Hcoin.
  destruct pending as [|j pending].
  - rewrite record_slots_none.
    assert (F : forallb (fun r => bool_decide (is_Some r)) (Some <$> records) = true).
    { apply forallb_is_Some, Forall_fmap, Forall_true. intros x. cbn. eauto. }
    rewrite F, (omap_all_Some (Some <$> records) records) by reflexivity.
    destruct (outcome i); [reflexivity|].
    rewrite app_nil_r. reflexivity.
  - rewrite (record_slots_not_full j)
      by (try apply Hlt; apply elem_of_cons; left; reflexivity).
    destruct (outcome i); [reflexivity|].
    rewrite app_nil_r. reflexivity.
Qed.

(** All the pending requests settle, in any order. *)
Lemma history_run_finishes pending : forall s suspended log,
  NoDup pending -> pending <> [] ->
  (forall i, i ∈ pending -> (i < length data)%nat) ->
  suspended !! c
  = Some {| url_order := order;
            stage := AwaitHistories data (slots records pending) |} ->
  Runs.history_run fmc (Runs.park s suspended log) c results pending
  = fetchData_finish
      (Runs.park s (delete c suspended)
         (log ++ Runs.history_errors data results pending)) order records.
Proof.
  induction pending as [|i pending IH]; intros s suspended log Hnd Hne Hlt Hc;
    [congruence|].
  apply NoDup_cons in Hnd as [Hi Hnd].
  assert (Hil : (i < length data)%nat) by (apply Hlt, elem_of_cons; left; reflexivity).
  destruct (lookup_lt_is_Some_2 data i Hil) as [coin Hcoin].
  unfold Runs.history_run. cbn [foldl].
  rewrite (history_step s suspended log i coin pending Hcoin Hi); [|
    intros j Hj; apply Hlt, elem_of_cons; right; exact Hj | exact Hc].
  destruct pending as [|j pending]; [reflexivity|].
  fold (Runs.history_run fmc
          (Runs.park s
             (<[c := {| url_order := order;
                        stage := AwaitHistories data (slots records (j :: pending)) |}]>
                suspended)
             (log ++ Runs.history_errors data results [i]))
          c results (j :: pending)).
  rewrite IH; [| assumption | congruence
               | intros k Hk; apply Hlt, elem_of_cons; right; exact Hk
               | apply lookup_insert_eq].
  rewrite delete_insert_eq, <- app_assoc.
  change (i :: j :: pending) with ([i] ++ j :: pending).
  unfold Runs.history_errors. rewrite omap_app. reflexivity.
Qed.

End Cycle.

Lemma ranked_history_run c results arrival : forall s,
  run Ranked.handle s (history_events c results arrival)
  = Runs.history_run Ranked.fetchMarketChart s c results arrival.
Proof.
  induction arrival as [|i arrival IH]; intros s; [reflexivity|].
  unfold run, history_events, Runs.history_run in *.
  rewrite fmap_cons. cbn [foldl]. apply IH.
Qed.

Lemma indicator_history_run c results arrival : forall s,
  run IndicatorPage.handle s (history_events c results arrival)
  = Runs.history_run fetchMarketChart s c results arrival.
Proof.
  induction arrival as [|i arrival IH]; intros s; [reflexivity|].
  unfold run, history_events, Runs.history_run in *.
  rewrite fmap_cons. cbn [foldl]. apply IH.
Qed.

(** A cycle from its snapshot response to its end, for either variant of
    [fetchMarketChart]. *)
Lemma cycle_run fmc s c order data results arrival :
  cycles s !! c = Some {| url_order := order; stage := AwaitSnapshot |} ->
  length results = length data ->
  arrival ≡ₚ seq 0 (length data) ->
  Runs.history_run fmc (fetchData_snapshot s c (Some data)) c results arrival
  = fetchData_finish
      (Runs.park (set_requests (requests s ++ (GetMarketChart ∘ id <$> data)) s)
         (delete c (cycles s))
         (console s ++ Runs.history_errors data results arrival))
      order (enrich fmc data results).
Proof.
  intros Hc Hlen Hperm. unfold fetchData_snapshot. rewrite Hc. cbv zeta.
  destruct data as [|coin data].
  - apply Permutation_nil_r in Hperm. subst arrival.
    destruct results; [|discriminate].
    cbn [length Nat.eqb]. unfold Runs.history_run, Runs.history_errors.
    cbn [foldl omap list_omap enrich zip_with]. rewrite !app_nil_r.
    reflexivity.
  - cbn [length Nat.eqb].
    change (set_cycles ?m (set_requests ?r s))
      with (Runs.park (set_requests r s) m (console s)).
    rewrite (history_run_finishes fmc (coin :: data) results Hlen c order arrival).
    + cbn [cycles set_requests]. rewrite delete_insert_eq. reflexivity.
    + rewrite Hperm. apply NoDup_seq.
    + intros ->. apply Permutation_nil_l in Hperm. discriminate.
    + intros i Hi. rewrite Hperm in Hi. apply elem_of_seq in Hi. lia.
    + cbn [cycles set_requests]. rewrite lookup_insert_eq.
      rewrite (record_slots_all fmc (coin :: data) results Hlen); [reflexivity|].
      intros i Hi. rewrite Hperm. apply elem_of_seq. lia.
Qed.

(** X10.  On the ranked page, a cycle whose snapshot request succeeds always
    ends well, whatever its history requests do and in whatever order they
    settle: one history request is sent per coin, in the order of the
    snapshot; the records of [enrich] are kept under the order of the
    request; each failed history request is logged under the id of its coin
    and never shows the error message; the table gets a row per record; the
    loading element is hidden, the content shown and the timer armed. *)
Theorem ranked_cycle_completes (s : State) (c : nat) (order : Order)
    (data : list Coin) (results : list HistoryResult) (arrival : list nat) :
  cycles s !! c = Some {| url_order := order; stage := AwaitSnapshot |} ->
  length results = length data ->
  arrival ≡ₚ seq 0 (length data) ->
  let s' := run Ranked.handle s
              (SnapshotSettled c (Some data) :: history_events c results arrival) in
  coinsData s' = enrich Ranked.fetchMarketChart data results
  /\ coinsOrder s' = Some order
  /\ requests s' = requests s ++ (GetMarketChart ∘ id <$> data)
  /\ console s' = console s ++ Runs.history_errors data results arrival
  /\ loadingText s' = loadingText s
  /\ cycles s' = delete c (cycles s)
  /\ tbody s' = tbody s ++ seq 0 (length data)
  /\ loadingShown s' = false
  /\ contentHidden s' = false
  /\ refreshTimer s' = Some (nextTimer s)
  /\ timers s' = {[nextTimer s]} ∪ timers s.
Proof.
  intros Hc Hlen Hperm s'.
  assert (Hs : s' = fetchData_finish
      (Runs.park (set_requests (requests s ++ (GetMarketChart ∘ id <$> data)) s)
         (delete c (cycles s))
         (console s ++ Runs.history_errors data results arrival))
      order (enrich Ranked.fetchMarketChart data results)).
  { subst s'. unfold run. cbn [foldl Ranked.handle].
    fold (run Ranked.handle (fetchData_snapshot s c (Some data))
            (history_events c results arrival)).
    rewrite ranked_history_run. apply cycle_run; assumption. }
  rewrite Hs.
  pose proof (fetchData_finish_post
    (Runs.park (set_requests (requests s ++ (GetMarketChart ∘ id <$> data)) s)
       (delete c (cycles s))
       (console s ++ Runs.history_errors data results arrival))
    order (enrich Ranked.fetchMarketChart data results)) as H.
  cbv zeta in H.
  destruct H as (H1 & H2 & H3 & _ & H5 & H6 & H7 & H8 & H9 & H10 & H11 & H12 & _).
  split_and!; try assumption.
  - rewrite H3. unfold enrich. rewrite length_zip_with. f_equal. f_equal. lia.
Qed.

Lemma ranked_cycle_completes_witness :
  let s := Ranked.handle Ranked.init DOMContentLoaded in
  let data := [sample_coin "a" 500 (Some 1000); sample_coin "b" 5 None] in
  let results := [Rejected; Resolved (Some short_history)] in
  let s' := run Ranked.handle s
              (SnapshotSettled 0 (Some data) :: history_events 0 results [1; 0]%nat) in
  coinsData s' = enrich Ranked.fetchMarketChart data results
  /\ console s' = [ErrorHistorical "a"]
  /\ refreshTimer s' = Some 1%nat.
Proof.
  intros s data results s'.
  assert (Hc : cycles s !! 0%nat
               = Some {| url_order := MARKET_CAP_DESC; stage := AwaitSnapshot |})
    by reflexivity.
  assert (Hp : [1; 0]%nat ≡ₚ seq 0 (length data)) by apply Permutation_swap.
  pose proof (ranked_cycle_completes s 0 MARKET_CAP_DESC data results [1; 0]%nat
                Hc eq_refl Hp) as H.
  cbv zeta in H. destruct H as (H1 & _ & _ & H4 & _ & _ & _ & _ & _ & H10 & _).
  split; [exact H1|]. split; [exact H4 | exact H10].
Defined.

(** ** The indicator page never leaves its settings *)

(** What the indicator page keeps: the order by market cap, the 30-day
    timeframe, and no snapshot request but by market cap. *)
Lemma indicator_settings s :
  IndicatorPage.reachable s ->
  currentOrder s = MARKET_CAP_DESC
  /\ chartTimeframe s = TF30d
  /\ forall order, GetMarkets order ∈ requests s -> order = MARKET_CAP_DESC.
Proof.
  induction 1 as [|s e Hr (Ho & Htf & Hreq) Hne].
  - split_and!; try reflexivity.
    intros order [[= <-] | []%not_elem_of_nil]%elem_of_cons. reflexivity.
  - assert (Hstart : forall s0,
              currentOrder s0 = MARKET_CAP_DESC -> chartTimeframe s0 = TF30d ->
              (forall order, GetMarkets order ∈ requests s0 -> order = MARKET_CAP_DESC) ->
              currentOrder (fetchData_start s0) = MARKET_CAP_DESC
              /\ chartTimeframe (fetchData_start s0) = TF30d
              /\ forall order, GetMarkets order ∈ requests (fetchData_start s0) ->
                   order = MARKET_CAP_DESC).
    { intros s0 Ho0 Htf0 Hreq0. unfold fetchData_start. cbv zeta.
      cbn [refreshTimer set_loadingShown set_contentHidden set_tbody].
      destruct (refreshTimer s0); cbn; (split_and!; [assumption | assumption |]);
        intros order [Hin | Hin]%elem_of_app; auto;
        apply list_elem_of_singleton in Hin; congruence. }
    assert (Hfinish : forall s0 order coins,
              currentOrder s0 = MARKET_CAP_DESC -> chartTimeframe s0 = TF30d ->
              (forall order, GetMarkets order ∈ requests s0 -> order = MARKET_CAP_DESC) ->
              currentOrder (fetchData_finish s0 order coins) = MARKET_CAP_DESC
              /\ chartTimeframe (fetchData_finish s0 order coins) = TF30d
              /\ forall o, GetMarkets o ∈ requests (fetchData_finish s0 order coins) ->
                   o = MARKET_CAP_DESC).
    { intros s0 order coins Ho0 Htf0 Hreq0.
      pose proof (fetchData_finish_post s0 order coins) as H. cbv zeta in H.
      destruct H as (_ & _ & _ & _ & _ & _ & _ & _ & _ & _ & H11 & _ & H13 & H14).
      rewrite H11, H13, H14. auto. }
    destruct e; try congruence; cbn [IndicatorPage.handle]; auto.
    + unfold timer_fires. destruct (bool_decide _); auto.
    + unfold fetchData_snapshot.
      destruct (cycles s !! c) as [[order [|? ?]]|]; auto.
      destruct response as [data|]; [|cbn; auto].
      assert (Hreq' : forall order0,
                GetMarkets order0 ∈ requests s ++ (GetMarketChart ∘ id <$> data) ->
                order0 = MARKET_CAP_DESC).
      { intros o [Hin | Hin]%elem_of_app; auto.
        apply list_elem_of_fmap in Hin as (x & Hx & _). discriminate. }
      destruct (length data =? 0)%nat; [apply Hfinish | cbn]; auto.
    + unfold fetchData_history.
      destruct (cycles s !! c) as [[order [|? ?]]|]; auto.
      destruct (_ !! i) as [coin|]; auto.
      destruct (_ !! i) as [[r|]|]; auto.
      destruct (forallb _ _); [apply Hfinish | ]; destruct result; cbn; auto.
Qed.

(** X11.  On the indicator page at most one cycle is under way and at most
    one timeout pending, and never both together; the order stays by market
    cap and the timeframe 30 days, and no snapshot is ever requested by
    volume. *)
Theorem indicator_page_invariants (s : State) :
  IndicatorPage.reachable s ->
  (size (cycles s) <= 1)%nat
  /\ (size (timers s) <= 1)%nat
  /\ (cycles s <> ∅ -> timers s = ∅)
  /\ currentOrder s = MARKET_CAP_DESC
  /\ chartTimeframe s = TF30d
  /\ (forall order, GetMarkets order ∈ requests s -> order = MARKET_CAP_DESC).
Proof.
  intros Hr. destruct (indicator_settings s Hr) as (Ho & Htf & Hreq).
  destruct (reachable_inv s Hr) as [[Hc Ht] | (c & cy & Hc & Ht & _)].
  - rewrite Hc. split_and!; try assumption.
    + rewrite map_size_empty. lia.
    + destruct (refreshTimer s) as [t|] eqn:E.
      * apply (Nat.le_trans _ (size ({[t]} : gset nat))); [|rewrite size_singleton; lia].
        apply subseteq_size. intros t' Ht'. apply Ht in Ht'.
        injection Ht' as <-. apply elem_of_singleton. reflexivity.
      * replace (timers s) with (∅ : gset nat); [rewrite size_empty; lia|].
        symmetry. apply set_eq. intros t'. split; [|intros []%not_elem_of_empty].
        intros Ht'. apply Ht in Ht'. discriminate.
    + intros H. contradiction.
  - rewrite Hc, Ht. split_and!; try assumption.
    + rewrite map_size_singleton. lia.
    + rewrite size_empty. lia.
    + reflexivity.
Qed.

Lemma indicator_page_invariants_witness :
  let s := run IndicatorPage.handle IndicatorPage.init
             [DOMContentLoaded; SnapshotSettled 0 (Some [])] in
  IndicatorPage.reachable s
  /\ (size (cycles s) <= 1)%nat
  /\ (size (timers s) <= 1)%nat
  /\ (cycles s <> ∅ -> timers s = ∅)
  /\ currentOrder s = MARKET_CAP_DESC
  /\ chartTimeframe s = TF30d
  /\ (forall order, GetMarkets order ∈ requests s -> order = MARKET_CAP_DESC).
Proof.
  intros s.
  assert (Hr : IndicatorPage.reachable s).
  { apply (IndicatorPage.reachable_step _ (SnapshotSettled 0 (Some [])));
      [apply IndicatorPage.reachable_load | discriminate]. }
  split; [exact Hr|]. apply (indicator_page_invariants s Hr).
Defined.

(** X12.  The refresh loop of the indicator page goes on after a cycle
    whose snapshot request succeeded, whatever its history requests did:
    the cycle leaves exactly one timeout pending and none under way, and
    when that timeout fires a new cycle starts with one snapshot request by
    market cap and an empty table. *)
Theorem indicator_loop_continues (s : State) (c : nat) (order : Order)
    (data : list Coin) (results : list HistoryResult) (arrival : list nat) :
  IndicatorPage.reachable s ->
  cycles s !! c = Some {| url_order := order; stage := AwaitSnapshot |} ->
  length results = length data ->
  arrival ≡ₚ seq 0 (length data) ->
  let s1 := run IndicatorPage.handle s
              (SnapshotSettled c (Some data) :: history_events c results arrival) in
  let s2 := IndicatorPage.handle s1 (TimerFires (nextTimer s)) in
  coinsData s1 = enrich fetchMarketChart data results
  /\ cycles s1 = ∅
  /\ timers s1 = {[nextTimer s]}
  /\ requests s2 = requests s1 ++ [GetMarkets MARKET_CAP_DESC]
  /\ size (cycles s2) = 1%nat
  /\ timers s2 = ∅
  /\ tbody s2 = [].
Proof.
  intros Hr Hc Hlen Hperm s1 s2.
  destruct (reachable_inv s Hr) as [[Hc' _] | (c' & cy & Hcs & Ht & _)];
    [rewrite Hc' in Hc; discriminate|].
  destruct (indicator_settings s Hr) as (Ho & _ & _).
  assert (Hs : s1 = fetchData_finish
      (Runs.park (set_requests (requests s ++ (GetMarketChart ∘ id <$> data)) s)
         (delete c (cycles s))
         (console s ++ Runs.history_errors data results arrival))
      order (enrich fetchMarketChart data results)).
  { subst s1. unfold run. cbn [foldl IndicatorPage.handle].
    fold (run IndicatorPage.handle (fetchData_snapshot s c (Some data))
            (history_events c results arrival)).
    rewrite indicator_history_run. apply cycle_run; assumption. }
  pose proof (fetchData_finish_post
    (Runs.park (set_requests (requests s ++ (GetMarketChart ∘ id <$> data)) s)
       (delete c (cycles s))
       (console s ++ Runs.history_errors data results arrival))
    order (enrich fetchMarketChart data results)) as H.
  cbv zeta in H. rewrite <- Hs in H.
  destruct H as (H1 & _ & _ & _ & _ & _ & _ & _ & H9 & H10 & _ & H12 & H13 & _).
  cbn [Runs.park cycles timers nextTimer currentOrder
       set_cycles set_console set_requests] in H9, H10, H12, H13.
  assert (Hc1 : cycles s1 = ∅).
  { rewrite H12, Hcs in *. apply lookup_singleton_Some in Hc as [-> _].
    apply delete_singleton_eq. }
  assert (Ht1 : timers s1 = {[nextTimer s]}).
  { rewrite H10, Ht. apply (right_id_L ∅ (∪)). }
  split; [exact H1|]. split; [exact Hc1|]. split; [exact Ht1|].
  subst s2. cbn [IndicatorPage.handle]. unfold timer_fires.
  rewrite Ht1, bool_decide_eq_true_2 by (apply elem_of_singleton; reflexivity).
  unfold fetchData_start. cbv zeta.
  cbn [refreshTimer set_timers set_loadingShown set_contentHidden set_tbody].
  rewrite H9.
  cbn [requests cycles timers tbody currentOrder nextCycle
       set_timers set_loadingShown set_contentHidden set_tbody set_refreshTimer
       set_requests set_cycles set_nextCycle].
  rewrite Hc1, H13, Ho. split_and!.
  - reflexivity.
  - rewrite insert_empty, map_size_singleton. reflexivity.
  - apply set_eq. intros t. split; [|intros []%not_elem_of_empty].
    intros [[Hin Hn]%elem_of_difference _]%elem_of_difference. contradiction.
  - reflexivity.
Qed.

Lemma indicator_loop_continues_witness :
  let s := IndicatorPage.handle IndicatorPage.init DOMContentLoaded in
  let data := [sample_coin "a" 500 (Some 1000)] in
  let s1 := run IndicatorPage.handle s
              (SnapshotSettled 0 (Some data) :: history_events 0 [Rejected] [0%nat]) in
  let s2 := IndicatorPage.handle s1 (TimerFires (nextTimer s)) in
  timers s1 = {[nextTimer s]}
  /\ requests s2 = requests s1 ++ [GetMarkets MARKET_CAP_DESC].
Proof.
  intros s data s1 s2.
  assert (Hc : cycles s !! 0%nat
               = Some {| url_order := MARKET_CAP_DESC; stage := AwaitSnapshot |})
    by reflexivity.
  pose proof (indicator_loop_continues s 0 MARKET_CAP_DESC data [Rejected] [0%nat]
                IndicatorPage.reachable_load Hc eq_refl (Permutation_refl _)) as H.
  cbv zeta in H. destruct H as (_ & _ & H3 & H4 & _).
  split; [exact H3 | exact H4].
Defined.

(** ** The ranked page, when the order is switched between cycles only *)

Lemma fetchData_start_cycle s :
  cycles s = ∅ ->
  cycles (fetchData_start s)
  = {[nextCycle s := {| url_order := currentOrder s; stage := AwaitSnapshot |}]}
  /\ currentOrder (fetchData_start s) = currentOrder s
  /\ contentHidden (fetchData_start s) = true.
Proof.
  intros Hc. unfold fetchData_start. cbv zeta.
  cbn [refreshTimer set_loadingShown set_contentHidden set_tbody].
  destruct (refreshTimer s); cbn; rewrite Hc; split_and!; reflexivity.
Qed.

(** Between two cycles the table shown, if any, holds the records of the
    current order; during a cycle the content is hidden and the sole cycle
    under way is for the current order. *)
Lemma sequential_inv s :
  Runs.sequential s ->
  (IndicatorPage.waiting s
   /\ (contentHidden s = false -> coinsOrder s = Some (currentOrder s)))
  \/ (IndicatorPage.fetching s /\ contentHidden s = true
      /\ exists c st, cycles s = {[c := {| url_order := currentOrder s; stage := st |}]}).
Proof.
  assert (Hstart : forall s0,
            cycles s0 = ∅ -> (forall t, t ∈ timers s0 -> refreshTimer s0 = Some t) ->
            IndicatorPage.fetching (fetchData_start s0)
            /\ contentHidden (fetchData_start s0) = true
            /\ exists c st, cycles (fetchData_start s0)
                 = {[c := {| url_order := currentOrder (fetchData_start s0);
                             stage := st |}]}).
  { intros s0 Hc Ht. destruct (fetchData_start_cycle s0 Hc) as (H1 & H2 & H3).
    split; [apply fetchData_start_fetching; assumption|]. split; [exact H3|].
    rewrite H1, H2. eauto. }
  assert (Hfinish : forall s0 order coins,
            cycles s0 = ∅ -> timers s0 = ∅ -> currentOrder s0 = order ->
            IndicatorPage.waiting (fetchData_finish s0 order coins)
            /\ (contentHidden (fetchData_finish s0 order coins) = false ->
                coinsOrder (fetchData_finish s0 order coins)
                = Some (currentOrder (fetchData_finish s0 order coins)))).
  { intros s0 order coins Hc Ht Ho.
    split; [apply fetchData_finish_waiting; assumption|].
    pose proof (fetchData_finish_post s0 order coins) as H. cbv zeta in H.
    destruct H as (_ & H2 & _ & _ & _ & _ & _ & _ & _ & _ & _ & _ & H13 & _).
    rewrite H2, H13, Ho. reflexivity. }
  induction 1 as [|s e Hs IH Hne Hclick].
  - right. apply Hstart; [reflexivity|]. intros t []%not_elem_of_empty.
  - destruct e; try congruence; cbn [Ranked.handle].
    + (* market cap button *)
      specialize (Hclick eq_refl). unfold Ranked.setOrder.
      destruct (bool_decide _); [|exact IH].
      destruct IH as [[[_ Ht] _] | ((c & cy & Hc & _) & _)];
        [|rewrite Hc in Hclick; apply (f_equal size) in Hclick;
          rewrite map_size_singleton, map_size_empty in Hclick; discriminate].
      right. apply Hstart; assumption.
    + (* volume button *)
      specialize (Hclick eq_refl). unfold Ranked.setOrder.
      destruct (bool_decide _); [|exact IH].
      destruct IH as [[[_ Ht] _] | ((c & cy & Hc & _) & _)];
        [|rewrite Hc in Hclick; apply (f_equal size) in Hclick;
          rewrite map_size_singleton, map_size_empty in Hclick; discriminate].
      right. apply Hstart; assumption.
    + unfold Ranked.setTimeframe. destruct (bool_decide _); [|exact IH].
      rewrite updateAllCharts_frame. exact IH.
    + unfold Ranked.setTimeframe. destruct (bool_decide _); [|exact IH].
      rewrite updateAllCharts_frame. exact IH.
    + (* the timer fires *)
      unfold timer_fires. destruct (bool_decide (t ∈ timers s)) eqn:E; [|exact IH].
      apply bool_decide_eq_true in E.
      destruct IH as [[[Hc Ht] _] | ((c & cy & _ & Ht & _) & _)];
        [|rewrite Ht in E; destruct (not_elem_of_empty (C:=gset nat) t E)].
      right. apply Hstart; [exact Hc|].
      intros t'. cbn [timers set_timers refreshTimer]. intros Ht'.
      apply Ht. apply elem_of_difference in Ht' as [Ht' _]. exact Ht'.
    + (* the snapshot request settles *)
      unfold fetchData_snapshot.
      destruct (cycles s !! c) as [[order [|data results]]|] eqn:Hc; try exact IH.
      destruct IH as [[[Hw _] _] | ((c' & cy & Hcs & Ht & Hrt & Hl) & Hh & (c2 & st & Hcur))];
        [rewrite Hw in Hc; discriminate|].
      rewrite Hcur in Hc. apply lookup_singleton_Some in Hc as [-> [= <- ->]].
      destruct response as [data|]; [destruct (length data =? 0)%nat|].
      * left. apply Hfinish; cbn; [| assumption | reflexivity].
        rewrite Hcur. apply delete_singleton_eq.
      * right. split; [|split; [exact Hh|]]; cbn.
        -- eexists c, _. cbn. rewrite Hcur.
           split_and!; [apply insert_singleton_eq | assumption..].
        -- eexists c, _. rewrite Hcur. apply insert_singleton_eq.
      * left. split.
        -- apply fetchData_catch_waiting; cbn; [|assumption].
           rewrite Hcur. apply delete_singleton_eq.
        -- cbn. rewrite Hh. discriminate.
    + (* a history request settles *)
      unfold fetchData_history.
      destruct (cycles s !! c) as [[order [|data results]]|] eqn:Hc; try exact IH.
      destruct (data !! i) as [coin|]; [|exact IH].
      destruct (results !! i) as [[r|]|]; try exact IH.
      destruct IH as [[[Hw _] _] | ((c' & cy & Hcs & Ht & Hrt & Hl) & Hh & (c2 & st & Hcur))];
        [rewrite Hw in Hc; discriminate|].
      rewrite Hcur in Hc. apply lookup_singleton_Some in Hc as [-> [= <- ->]].
      destruct (forallb _ _).
      * left. apply Hfinish; destruct result; cbn;
          try assumption; try reflexivity;
          rewrite Hcur; apply delete_singleton_eq.
      * right. destruct result; (split; [|split; [exact Hh|]]); cbn.
        -- eexists c, _. cbn. rewrite Hcur.
           split_and!; [apply insert_singleton_eq | assumption..].
        -- eexists c, _. rewrite Hcur. apply insert_singleton_eq.
        -- eexists c, _. cbn. rewrite Hcur.
           split_and!; [apply insert_singleton_eq | assumption..].
        -- eexists c, _. rewrite Hcur. apply insert_singleton_eq.
Qed.

(** X13.  When the order buttons of the ranked page are clicked only while
    no cycle is under way, two cycles are never under way together, no
    timeout is pending during a cycle, the cycle under way is for the
    current order, and the table, when shown, holds the records of the
    current order. *)
Theorem ranked_sequential_order (s : State) :
  Runs.sequential s ->
  (size (cycles s) <= 1)%nat
  /\ (cycles s <> ∅ -> timers s = ∅)
  /\ (forall c cy, cycles s !! c = Some cy -> url_order cy = currentOrder s)
  /\ (contentHidden s = false -> coinsOrder s = Some (currentOrder s)).
Proof.
  intros Hs.
  destruct (sequential_inv s Hs)
    as [[[Hc _] Ho] | ((c' & cy' & _ & Ht & _) & Hh & (c & st & Hcur))].
  - rewrite Hc. split_and!; [rewrite map_size_empty; lia | congruence | | exact Ho].
    intros c cy H. rewrite lookup_empty in H. discriminate.
  - rewrite Hcur. split_and!.
    + rewrite map_size_singleton. lia.
    + intros _. exact Ht.
    + intros c0 cy H. apply lookup_singleton_Some in H as [_ <-]. reflexivity.
    + rewrite Hh. discriminate.
Qed.

Lemma ranked_sequential_order_witness :
  let s := run Ranked.handle Ranked.init
             [DOMContentLoaded; SnapshotSettled 0 (Some []); ClickVolume] in
  Runs.sequential s
  /\ (size (cycles s) <= 1)%nat
  /\ (cycles s <> ∅ -> timers s = ∅)
  /\ (forall c cy, cycles s !! c = Some cy -> url_order cy = currentOrder s)
  /\ (contentHidden s = false -> coinsOrder s = Some (currentOrder s)).
Proof.
  intros s.
  assert (Hs : Runs.sequential s).
  { apply (Runs.sequential_step _ ClickVolume); [|discriminate | intros _; reflexivity].
    apply (Runs.sequential_step _ (SnapshotSettled 0 (Some [])));
      [apply Runs.sequential_load | discriminate | discriminate]. }
  split; [exact Hs|]. apply (ranked_sequential_order s Hs).
Defined.

(** ** The minimal page *)

Lemma minimal_start s :
  MinimalPage.currentOrder (MinimalPage.fetchData_start s) = MinimalPage.currentOrder s
  /\ MinimalPage.requests (MinimalPage.fetchData_start s)
     = MinimalPage.requests s ++ [GetMarkets (MinimalPage.currentOrder s)].
Proof. split; reflexivity. Qed.

Lemma minimal_settled s c response :
  MinimalPage.currentOrder (MinimalPage.fetchData_settled s c response)
  = MinimalPage.currentOrder s
  /\ MinimalPage.requests (MinimalPage.fetchData_settled s c response)
     = MinimalPage.requests s.
Proof.
  unfold MinimalPage.fetchData_settled.
  destruct (bool_decide _); [destruct response|]; split; reflexivity.
Qed.

Lemma minimal_setOrder s order :
  MinimalPage.currentOrder (MinimalPage.setOrder order s) = order
  /\ MinimalPage.requests (MinimalPage.setOrder order s)
     = MinimalPage.requests s
       ++ (if bool_decide (MinimalPage.currentOrder s ≠ order)
           then [GetMarkets order] else []).
Proof.
  unfold MinimalPage.setOrder.
  destruct (bool_decide (MinimalPage.currentOrder s ≠ order)) eqn:E.
  - split; reflexivity.
  - apply bool_decide_eq_false in E. rewrite app_nil_r.
    split; [|reflexivity].
    destruct (decide (MinimalPage.currentOrder s = order)) as [H|H];
      [exact H | contradiction].
Qed.

(** X14.  The minimal page sends a snapshot request when it is loaded and
    when a click changes the order, each with the order then in force, and
    nothing else: a click on the order in force, a response or any other
    event sends nothing, and no history is ever requested. *)
Theorem minimal_page_requests (events : list Event) : forall s,
  MinimalPage.requests (MinimalPage.run s events)
  = MinimalPage.requests s
    ++ (GetMarkets <$> Runs.fetches (MinimalPage.currentOrder s) events).
Proof.
  induction events as [|e events IH]; intros s.
  - cbn. rewrite app_nil_r. reflexivity.
  - unfold MinimalPage.run in *. cbn [foldl]. rewrite IH.
    destruct e; cbn [MinimalPage.handle Runs.fetches]; try reflexivity.
    + destruct (minimal_start s) as [-> ->].
      rewrite fmap_cons, <- app_assoc. reflexivity.
    + destruct (minimal_setOrder s MARKET_CAP_DESC) as [H1 H2]. rewrite H2.
      destruct (bool_decide (MinimalPage.currentOrder s ≠ MARKET_CAP_DESC)) eqn:E.
      * rewrite H1, fmap_cons, <- app_assoc. reflexivity.
      * rewrite H1, app_nil_r. apply bool_decide_eq_false in E.
        destruct (decide (MinimalPage.currentOrder s = MARKET_CAP_DESC)) as [->|H];
          [reflexivity | contradiction].
    + destruct (minimal_setOrder s VOLUME_DESC) as [H1 H2]. rewrite H2.
      destruct (bool_decide (MinimalPage.currentOrder s ≠ VOLUME_DESC)) eqn:E.
      * rewrite H1, fmap_cons, <- app_assoc. reflexivity.
      * rewrite H1, app_nil_r. apply bool_decide_eq_false in E.
        destruct (decide (MinimalPage.currentOrder s = VOLUME_DESC)) as [->|H];
          [reflexivity | contradiction].
    + destruct (minimal_settled s c response) as [-> ->]. reflexivity.
Qed.

(** ** The 50-day cell *)

(** X15.  For a record with a positive 50-day average, the class of the
    percent cell of the indicator page is the class of the Above/Below cell
    of the ranked page: positive exactly when the current price is not
    below the average, negative exactly when it is below. *)
Theorem dma50_class (coin : Enriched) (avg : Q) :
  avg50 coin.2 = Some avg -> 0 < avg ->
  (Cells.dma50 coin).1 = Cells.dmaClass coin
  /\ ((Cells.dma50 coin).1 = Cells.Positive <-> avg <= current_price coin.1)
  /\ ((Cells.dma50 coin).1 = Cells.Negative <-> current_price coin.1 < avg).
Proof.
  intros Ha Hpos. unfold Cells.dma50, Cells.dmaClass, Cells.above50.
  rewrite Ha. cbn [fst].
  set (price := current_price coin.1).
  assert (Hd : 0 <= (price - avg) / avg * 100 <-> avg <= price).
  { split; intros H.
    - assert (H' : 0 <= (price - avg) / avg) by lra.
      apply (Qmult_le_compat_r _ _ avg) in H'; [|lra].
      assert (E : (price - avg) / avg * avg == price - avg) by (field; lra).
      rewrite E in H'. lra.
    - assert (H' : 0 <= (price - avg) / avg) by (apply Qdiv_nonneg; lra).
      lra. }
  destruct (Qle_bool 0 ((price - avg) / avg * 100)) eqn:E1;
    destruct (Qle_bool avg price) eqn:E2;
    try apply Qle_bool_iff in E1; try apply Qle_bool_iff in E2;
    try apply Qle_bool_false_lt in E1; try apply Qle_bool_false_lt in E2.
  - split_and!; [reflexivity | tauto | split; [discriminate | intros; lra]].
  - apply Hd in E1. lra.
  - apply Hd in E2. lra.
  - split_and!; [reflexivity | split; [discriminate | intros; lra] | tauto].
Qed.

Lemma dma50_class_witness :
  let coin := (sample_coin "a" 500 (Some 1000), fetchMarketChart (Some short_history)) in
  avg50 coin.2 = Some ((0 + 1 + 2 + 3) / num 3) /\ 0 < (0 + 1 + 2 + 3) / num 3
  /\ (Cells.dma50 coin).1 = Cells.dmaClass coin.
Proof.
  intros coin.
  assert (Ha : avg50 coin.2 = Some ((0 + 1 + 2 + 3) / num 3)) by reflexivity.
  assert (Hp : 0 < (0 + 1 + 2 + 3) / num 3) by reflexivity.
  split; [exact Ha|]. split; [exact Hp|].
  destruct (dma50_class coin _ Ha Hp) as [H _]. exact H.
Defined.

(** ** When the ratio is there *)

(** X16.  A ratio that is shown comes from a known, positive market cap and
    is the volume divided by it; it is not negative when the volume is
    not. *)
Theorem ratio_present (coin : Coin) (r : Q) :
  IndicatorPage.ratio coin = Some r ->
  exists cap, market_cap coin = Some cap /\ 0 < cap
    /\ r = total_volume coin / cap
    /\ (0 <= total_volume coin -> 0 <= r).
Proof.
  unfold IndicatorPage.ratio. intros H.
  destruct (market_cap coin) as [cap|]; [|discriminate].
  destruct (negb (Qeq_bool cap 0)); [|discriminate].
  destruct (Qlt_bool 0 cap) eqn:E; [|discriminate].
  apply Qlt_bool_iff in E. injection H as <-.
  exists cap. split_and!; try reflexivity; [exact E|].
  intros Hv. apply Qdiv_nonneg; assumption.
Qed.

Lemma ratio_present_witness :
  exists cap, market_cap (sample_coin "a" 500 (Some 1000)) = Some cap /\ 0 < cap
    /\ 500 / 1000 = total_volume (sample_coin "a" 500 (Some 1000)) / cap
    /\ (0 <= total_volume (sample_coin "a" 500 (Some 1000)) -> 0 <= 500 / 1000).
Proof.
  apply (ratio_present (sample_coin "a" 500 (Some 1000)) (500 / 1000)).
  reflexivity.
Defined.

(** ** A timeframe click during a cycle *)

(** X17.  While a cycle is under way the table is empty.  A click on the
    other timeframe then switches [chartTimeframe], but with records kept
    from an earlier cycle the redrawing throws on the first chart, and
    every chart stays as it was. *)
Theorem setTimeframe_empty_table (s : State) (tf : Timeframe) :
  tbody s = [] -> coinsData s <> [] -> chartTimeframe s <> tf ->
  (updateAllCharts (set_chartTimeframe tf s)).2 = true
  /\ Ranked.setTimeframe tf s = set_chartTimeframe tf s.
Proof.
  intros Ht Hc Hne. unfold Ranked.setTimeframe, updateAllCharts.
  rewrite bool_decide_eq_true_2 by assumption.
  cbn [chartTimeframe tbody coinsData chartInstances set_chartTimeframe].
  rewrite Ht. destruct (coinsData s) as [|coin rest]; [congruence|].
  cbn [drawAll].
  rewrite bool_decide_eq_false_2 by apply not_elem_of_nil.
  cbn [fst snd]. split; reflexivity.
Qed.

Lemma setTimeframe_empty_table_witness :
  let s := run Ranked.handle Ranked.init
             [DOMContentLoaded; SnapshotSettled 0 (Some [sample_coin "a" 500 None]);
              HistorySettled 0 0 Rejected; ClickVolume] in
  tbody s = [] /\ coinsData s <> [] /\ chartTimeframe s <> TF30d
  /\ (updateAllCharts (set_chartTimeframe TF30d s)).2 = true
  /\ Ranked.setTimeframe TF30d s = set_chartTimeframe TF30d s.
Proof.
  intros s.
  assert (H1 : tbody s = []) by reflexivity.
  assert (H2 : coinsData s <> []) by discriminate.
  assert (H3 : chartTimeframe s <> TF30d) by discriminate.
  split; [exact H1|]. split; [exact H2|]. split; [exact H3|].
  apply (setTimeframe_empty_table s TF30d H1 H2 H3).
Defined.
